(** * darksky: a client for the Dark Sky forecast API

    Shallow embedding of [darksky.go]: the forecast data model with
    [DataPoint.WindDirection], and the request builder [ForecastRequest]
    with [MakeRequest], the [With...] setters, [URL] and [Get].

    Conventions.
    - [float64] is Rocq's primitive binary64 [float]; Go's [<] and [>] on
      [float64] are [PrimFloat.ltb].
    - [int64] and [int] are [Z]; the code does no integer arithmetic, so no
      wrap-around is written out.
    - Go strings and [[]byte] are byte strings: [string].
    - A Go [(T, error)] result is a [result T].
    - Methods with a pointer receiver that assign a field are functions from
      the receiver's state to its new state; methods that only read take the
      state and return the result. *)

From Stdlib Require Import ZArith Lia Bool List Floats.
From Stdlib Require Import Ascii String.
From Stdlib Require Import DecimalString DecimalPos.
From stdpp Require Import base option list gmap strings sorting.

Local Open Scope Z_scope.

(** ** Errors and results *)

(** Go's [error] interface, by where the value was made: [errors.New] in this
    package, or a library ([net/url], [net/http], [io], [encoding/json]). *)
Inductive error : Type :=
| errors_New (text : string)
| library_error (pkg : string) (text : string).

(** The [Error()] method. *)
Definition Error_text (e : error) : string :=
  match e with
  | errors_New text => text
  | library_error _ text => text
  end.

Inductive result (A : Type) : Type :=
| Ok (a : A)
| Err (e : error).
Arguments Ok {A} a.
Arguments Err {A} e.

(** ** Forecast data model *)

Record DataPoint := mkDataPoint {
  dp_Time : Z;
  dp_Summary : string;
  dp_Icon : string;
  dp_SunriseTime : Z;
  dp_SunsetTime : Z;
  dp_PrecipIntensity : float;
  dp_PrecipIntensityMax : float;
  dp_PrecipIntensityMaxTime : Z;
  dp_PrecipProbability : float;
  dp_PrecipType : string;
  dp_PrecipAccumulation : float;
  dp_Temperature : float;
  dp_TemperatureMin : float;
  dp_TemperatureMinTime : Z;
  dp_TemperatureMax : float;
  dp_TemperatureMaxTime : Z;
  dp_ApparentTemperature : float;
  dp_DewPoint : float;
  dp_WindSpeed : float;
  dp_WindBearing : float;
  dp_CloudCover : float;
  dp_Humidity : float;
  dp_Pressure : float;
  dp_Visibility : float;
  dp_Ozone : float;
  dp_MoonPhase : float
}.

Record DataBlock := mkDataBlock {
  db_Summary : string;
  db_Icon : string;
  db_Data : list DataPoint
}.

Record Alert := mkAlert {
  al_Title : string;
  al_Description : string;
  al_Expires : Z;
  al_URI : string
}.

Record Flags := mkFlags {
  fl_DarkSkyUnavailable : string;
  fl_DarkSkyStations : list string;
  fl_DataPointStations : list string;
  fl_ISDStations : list string;
  fl_LAMPStations : list string;
  fl_METARStations : list string;
  fl_METNOLicense : string;
  fl_Sources : list string;
  fl_Units : string
}.

Record Forecast := mkForecast {
  Latitude : float;
  Longitude : float;
  Timezone : string;
  Offset : Z;
  Currently : DataPoint;
  Minutely : DataBlock;
  Hourly : DataBlock;
  Daily : DataBlock;
  Alerts : list Alert;
  fc_Flags : Flags
}.

(** Zero values ([DataPoint{}], [Forecast{}], ...). *)
Definition DataPoint_zero : DataPoint :=
  mkDataPoint 0 "" "" 0 0 0%float 0%float 0 0%float "" 0%float 0%float 0%float 0
              0%float 0 0%float 0%float 0%float 0%float 0%float 0%float 0%float
              0%float 0%float 0%float.
Definition DataBlock_zero : DataBlock := mkDataBlock "" "" [].
Definition Flags_zero : Flags := mkFlags "" [] [] [] [] [] "" [] "".
Definition Forecast_zero : Forecast :=
  mkForecast 0%float 0%float "" 0 DataPoint_zero DataBlock_zero DataBlock_zero
             DataBlock_zero [] Flags_zero.

(** [DataPoint{WindBearing: b}] *)
Definition DataPoint_with_WindBearing (b : float) : DataPoint :=
  mkDataPoint 0 "" "" 0 0 0%float 0%float 0 0%float "" 0%float 0%float 0%float 0
              0%float 0 0%float 0%float 0%float b 0%float 0%float 0%float
              0%float 0%float 0%float.

(** [func (dp DataPoint) WindDirection() string] *)
Definition WindDirection (dp : DataPoint) : string :=
  let direction := "" in
  let direction :=
    if (293 <? dp_WindBearing dp)%float || (dp_WindBearing dp <? 67)%float
    then direction +:+ "N" else direction in
  let direction :=
    if (dp_WindBearing dp <? 247)%float && (113 <? dp_WindBearing dp)%float
    then direction +:+ "S" else direction in
  let direction :=
    if (22 <? dp_WindBearing dp)%float && (dp_WindBearing dp <? 157)%float
    then direction +:+ "E" else direction in
  let direction :=
    if (dp_WindBearing dp <? 337)%float && (203 <? dp_WindBearing dp)%float
    then direction +:+ "W" else direction in
  direction.

(** The wind-direction rule as the specification words it: four tests on the
    bearing, each contributing its letter or nothing, concatenated in the
    order N, S, E, W. *)
Module CompassSpec.
Definition gt (a b : float) : bool := (b <? a)%float.
Definition lt (a b : float) : bool := (a <? b)%float.

Definition north (b : float) : bool := gt b 293 || lt b 67.
Definition south (b : float) : bool := gt b 113 && lt b 247.
Definition east (b : float) : bool := gt b 22 && lt b 157.
Definition west (b : float) : bool := gt b 203 && lt b 337.

Definition letter (fires : bool) (l : string) : string :=
  if fires then l else "".

Definition label (b : float) : string :=
  letter (north b) "N" +:+ letter (south b) "S" +:+
  letter (east b) "E" +:+ letter (west b) "W".
End CompassSpec.

(** The eight compass labels. *)
Definition compass_labels : list string :=
  ["N"; "NE"; "E"; "SE"; "S"; "SW"; "W"; "NW"].


(** ** Library: strconv *)

Module strconv.

(** [strconv.FormatInt(i, 10)]: the decimal numeral of [i], with a leading
    minus sign for a negative number. *)
Definition FormatInt (i : Z) : string :=
  NilZero.string_of_int (Z.to_int i).

(** The value of a decimal digit byte; Go's [ch -= '0'; if ch > 9] on a
    byte. *)
Definition digit (ch : ascii) : option Z :=
  let n := Z.of_N (N_of_ascii ch) in
  if (48 <=? n) && (n <=? 57) then Some (n - 48) else None.

(** The digit loop [n = n*10 + int(ch)]. *)
Fixpoint digits (s : string) (n : Z) : option Z :=
  match s with
  | EmptyString => Some n
  | String ch s' =>
    match digit ch with
    | Some d => digits s' (n * 10 + d)
    | None => None
    end
  end.

(** The size of [int], in bits, on the platforms Dark Sky clients run on. *)
Definition intSize : Z := 64.

Definition ErrSyntax : error := library_error "strconv" "invalid syntax".
Definition ErrRange : error := library_error "strconv" "value out of range".

(** [strconv.Atoi]: an optional sign, then one or more decimal digits, the
    value within [int]. *)
Definition Atoi (s : string) : result Z :=
  match s with
  | EmptyString => Err ErrSyntax
  | String c rest =>
    let neg := Ascii.eqb c "-" in
    let digs := if neg || Ascii.eqb c "+" then rest else s in
    match digs with
    | EmptyString => Err ErrSyntax
    | _ =>
      match digits digs 0 with
      | None => Err ErrSyntax
      | Some n =>
        let n := if neg then - n else n in
        if (- 2 ^ (intSize - 1) <=? n) && (n <? 2 ^ (intSize - 1))
        then Ok n else Err ErrRange
      end
    end
  end.

End strconv.

(** ** Library: net/url, the parts [URL] uses *)

Module url.

(** [url.Userinfo] *)
Record Userinfo := mkUserinfo {
  username : string;
  password : string;
  passwordSet : bool
}.

(** [url.URL] *)
Record URL := mkURL {
  Scheme : string;
  Opaque : string;
  User : option Userinfo;
  Host : string;
  Path : string;
  RawPath : string;
  ForceQuery : bool;
  RawQuery : string;
  Fragment : string
}.

(** [u.Path = p] *)
Definition set_Path (u : URL) (p : string) : URL :=
  mkURL (Scheme u) (Opaque u) (User u) (Host u) p (RawPath u) (ForceQuery u)
        (RawQuery u) (Fragment u).

(** [u.RawQuery = q] *)
Definition set_RawQuery (u : URL) (q : string) : URL :=
  mkURL (Scheme u) (Opaque u) (User u) (Host u) (Path u) (RawPath u)
        (ForceQuery u) q (Fragment u).

(** [url.Values]: [map[string][]string]. *)
Abbreviation Values := (gmap string (list string)).

(** [v[key]], the empty slice when the key is missing. *)
Definition values_at (v : Values) (key : string) : list string :=
  default [] (v !! key).

(** [v.Add(key, value)]: [v[key] = append(v[key], value)]. *)
Definition Add (v : Values) (key value : string) : Values :=
  <[key := values_at v key ++ [value]]> v.

(** Bytes [QueryEscape] leaves as they are: letters, digits and [-_.~]. *)
Definition unreserved (c : ascii) : bool :=
  let n := N_of_ascii c in
  ((97 <=? n) && (n <=? 122))%N || ((65 <=? n) && (n <=? 90))%N ||
  ((48 <=? n) && (n <=? 57))%N ||
  Ascii.eqb c "-" || Ascii.eqb c "_" || Ascii.eqb c "." || Ascii.eqb c "~".

(** ["0123456789ABCDEF"[n]] *)
Definition upperhex (n : N) : ascii :=
  if (n <? 10)%N then ascii_of_N (48 + n) else ascii_of_N (55 + n).

(** [url.QueryEscape]: a space becomes [+], every other byte that is not
    unreserved becomes [%XX]. *)
Fixpoint QueryEscape (s : string) : string :=
  match s with
  | EmptyString => EmptyString
  | String c s' =>
    if Ascii.eqb c " " then String "+" (QueryEscape s')
    else if unreserved c then String c (QueryEscape s')
    else String "%" (String (upperhex (N_of_ascii c / 16))
                    (String (upperhex (N_of_ascii c mod 16)) (QueryEscape s')))
  end.

(** Byte-wise order of strings, the order of [sort.Strings]. *)
Definition string_le (s1 s2 : string) : Prop := String.leb s1 s2 = true.

#[global] Instance string_le_dec (s1 s2 : string) : Decision (string_le s1 s2).
Proof. unfold string_le. apply _. Defined.

(** The keys of [v], sorted. *)
Definition sorted_keys (v : Values) : list string :=
  merge_sort string_le (map_to_list v).*1.

(** The [key=value] items of one key, in the order of its values. *)
Definition items_of (v : Values) (key : string) : list string :=
  map (fun value => QueryEscape key +:+ "=" +:+ QueryEscape value)
      (values_at v key).

(** The items [Encode] writes, in the order it writes them. *)
Definition items (v : Values) : list string :=
  flat_map (items_of v) (sorted_keys v).

(** [strings.Join(l, sep)] *)
Fixpoint join (sep : string) (l : list string) : string :=
  match l with
  | [] => ""
  | [x] => x
  | x :: l' => x +:+ sep +:+ join sep l'
  end.

(** [v.Encode()]: the items sorted by key, separated by [&]. *)
Definition Encode (v : Values) : string := join "&" (items v).

End url.

(** ** Library: net/http and io/ioutil, the parts [Get] uses *)

Module http.

(** A token byte of an HTTP header field name. *)
Definition validHeaderFieldByte (c : ascii) : bool :=
  let n := N_of_ascii c in
  ((97 <=? n) && (n <=? 122))%N || ((65 <=? n) && (n <=? 90))%N ||
  ((48 <=? n) && (n <=? 57))%N ||
  existsb (Ascii.eqb c)
    ["!"; "#"; "$"; "%"; "&"; "'"; "*"; "+"; "-"; "."; "^"; "_"; "`"; "|"; "~"]%char.

Definition is_lower (c : ascii) : bool :=
  ((97 <=? N_of_ascii c) && (N_of_ascii c <=? 122))%N.
Definition is_upper (c : ascii) : bool :=
  ((65 <=? N_of_ascii c) && (N_of_ascii c <=? 90))%N.

(** Upper case for the first letter and for a letter after a dash, lower
    case for the others. *)
Fixpoint canonical (upper : bool) (s : string) : string :=
  match s with
  | EmptyString => EmptyString
  | String c s' =>
    let c' := if upper && is_lower c then ascii_of_N (N_of_ascii c - 32)
              else if negb upper && is_upper c then ascii_of_N (N_of_ascii c + 32)
              else c in
    String c' (canonical (Ascii.eqb c' "-") s')
  end.

(** [textproto.CanonicalMIMEHeaderKey]: a key with a byte that is no token
    byte is returned as it is. *)
Definition CanonicalMIMEHeaderKey (s : string) : string :=
  if forallb validHeaderFieldByte (list_ascii_of_string s)
  then canonical true s else s.

(** [http.Header]: [map[string][]string], keys in canonical form. *)
Abbreviation Header := (gmap string (list string)).

(** [h.Get(key)]: the first value under the canonical form of [key], or the
    empty string. *)
Definition Header_Get (h : Header) (key : string) : string :=
  match h !! CanonicalMIMEHeaderKey key with
  | Some (value :: _) => value
  | _ => ""
  end.

(** [res.Body], an [io.ReadCloser]: the bytes it yields, and the error that
    ends the stream when it is not [io.EOF]. *)
Record ReadCloser := mkReadCloser {
  stream_data : string;
  stream_err : option error
}.

(** [ioutil.ReadAll(r)]: the bytes read, and the error met. *)
Definition ReadAll (r : ReadCloser) : string * option error :=
  (stream_data r, stream_err r).

(** [http.Response], the fields [Get] reads. *)
Record Response := mkResponse {
  StatusCode : Z;
  Header_ : Header;
  Body : ReadCloser
}.

End http.

(** ** The library calls left to the platform

    [url.Parse], [URL.Query] (the parse of the raw query), [URL.String], the
    [%v] rendering of a [float64], [http.Get] and [json.Unmarshal] into a
    [Forecast]. [json_Unmarshal blob f] is the value of [f] after the call and
    the error returned: the decoder may have written to [f] when it fails. *)
Class Platform := {
  url_Parse : string -> result url.URL;
  url_ParseQuery : string -> url.Values;
  URL_String : url.URL -> string;
  fmt_float64 : float -> string;
  http_Get : string -> result http.Response;
  json_Unmarshal : string -> Forecast -> Forecast * option error
}.

(** [u.Query()] *)
Definition URL_Query `{Platform} (u : url.URL) : url.Values :=
  url_ParseQuery (url.RawQuery u).

(** ** Request builder *)

(** [type Units string] *)
Definition Units : Type := string.
Definition US : Units := "us".
Definition SI : Units := "si".
Definition CA : Units := "ca".
Definition UK : Units := "uk".
Definition UK2 : Units := "uk2".
Definition AUTO : Units := "auto".

(** [type Lang string] *)
Definition Lang : Type := string.
Definition Arabic : Lang := "ar".
Definition Bosnian : Lang := "bs".
Definition German : Lang := "de".
Definition Greek : Lang := "el".
Definition English : Lang := "en".
Definition Spanish : Lang := "es".
Definition French : Lang := "fr".
Definition Croatian : Lang := "hr".
Definition Italian : Lang := "it".
Definition Dutch : Lang := "nl".
Definition Polish : Lang := "pl".
Definition Portuguese : Lang := "pt".
Definition Russian : Lang := "ru".
Definition Slovak : Lang := "sk".
Definition Swedish : Lang := "sv".
Definition Tetum : Lang := "tet".
Definition Turkish : Lang := "tr".
Definition Ukranian : Lang := "uk".
Definition PigLatin : Lang := "x-pig-latin".
Definition Chinese : Lang := "zh".
Definition TraditionalChinese : Lang := "zh-tw".

Definition APICallsHeader : string := "X-Forecast-API-Calls".

Record ForecastRequest := mkForecastRequest {
  req_Key : string;
  req_Lat : float;
  req_Lng : float;
  req_Time : Z;
  req_Lang : Lang;
  req_Units : Units;
  req_ExtendHourly : bool;
  req_Exclude : list string;
  req_baseURL : string
}.

Record ForecastResponse := mkForecastResponse {
  resp_Forecast : Forecast;
  resp_APICallCount : Z;
  resp_Error : option error
}.

(** [ForecastResponse{}] *)
Definition ForecastResponse_zero : ForecastResponse :=
  mkForecastResponse Forecast_zero 0 None.

(** [forecastResponse.Error = err] *)
Definition set_Error (err : error) (r : ForecastResponse) : ForecastResponse :=
  mkForecastResponse (resp_Forecast r) (resp_APICallCount r) (Some err).

(** [forecastResponse.APICallCount = callCount] *)
Definition set_APICallCount (callCount : Z) (r : ForecastResponse)
  : ForecastResponse :=
  mkForecastResponse (resp_Forecast r) callCount (resp_Error r).

(** [forecastResponse.Forecast = *forecast] *)
Definition set_Forecast (forecast : Forecast) (r : ForecastResponse)
  : ForecastResponse :=
  mkForecastResponse forecast (resp_APICallCount r) (resp_Error r).

Definition MakeRequest (key : string) (latitude longitude : float)
  : ForecastRequest :=
  {| req_Key := key;
     req_Lat := latitude;
     req_Lng := longitude;
     req_Time := -1;
     req_Lang := English;
     req_Units := US;
     req_ExtendHourly := false;
     req_Exclude := [];
     req_baseURL := "https://api.darksky.net/forecast" |}.

Definition WithBaseURL (baseURL : string) (f : ForecastRequest)
  : ForecastRequest :=
  mkForecastRequest (req_Key f) (req_Lat f) (req_Lng f) (req_Time f)
    (req_Lang f) (req_Units f) (req_ExtendHourly f) (req_Exclude f) baseURL.

Definition WithTime (t : Z) (f : ForecastRequest) : ForecastRequest :=
  mkForecastRequest (req_Key f) (req_Lat f) (req_Lng f) t
    (req_Lang f) (req_Units f) (req_ExtendHourly f) (req_Exclude f)
    (req_baseURL f).

Definition WithLang (l : Lang) (f : ForecastRequest) : ForecastRequest :=
  mkForecastRequest (req_Key f) (req_Lat f) (req_Lng f) (req_Time f)
    l (req_Units f) (req_ExtendHourly f) (req_Exclude f) (req_baseURL f).

Definition WithUnits (u : Units) (f : ForecastRequest) : ForecastRequest :=
  mkForecastRequest (req_Key f) (req_Lat f) (req_Lng f) (req_Time f)
    (req_Lang f) u (req_ExtendHourly f) (req_Exclude f) (req_baseURL f).

(** [fmt.Sprintf("%v/%v/%v,%v", path, key, lat, lng)] *)
Definition Sprintf_path `{Platform} (path key : string) (lat lng : float)
  : string :=
  path +:+ "/" +:+ key +:+ "/" +:+ fmt_float64 lat +:+ "," +:+ fmt_float64 lng.

(** [URL], up to its last statement: the value of [reqURL] that
    [reqURL.String()] renders, or the error of [url.Parse]. *)
Definition URL_reqURL `{Platform} (f : ForecastRequest) : result url.URL :=
  match url_Parse (req_baseURL f) with
  | Err err => Err err
  | Ok reqURL =>
    let v := URL_Query reqURL in
    let v := url.Add v "lang" (req_Lang f) in
    let v := url.Add v "units" (req_Units f) in
    let reqURL :=
      url.set_Path reqURL
        (Sprintf_path (url.Path reqURL) (req_Key f) (req_Lat f) (req_Lng f)) in
    let reqURL :=
      if 0 <? req_Time f
      then url.set_Path reqURL
             (url.Path reqURL +:+ "," +:+ strconv.FormatInt (req_Time f))
      else reqURL in
    let reqURL := url.set_RawQuery reqURL (url.Encode v) in
    Ok reqURL
  end.

(** [func (f *ForecastRequest) URL() (string, error)] *)
Definition URL `{Platform} (f : ForecastRequest) : result string :=
  match URL_reqURL f with
  | Err err => Err err
  | Ok reqURL => Ok (URL_String reqURL)
  end.

(** [func fromJSON(jsonBlob []byte)], returning a [Forecast] pointer or an error. *)
Definition fromJSON `{Platform} (jsonBlob : string) : result Forecast :=
  let '(f, err) := json_Unmarshal jsonBlob Forecast_zero in
  match err with
  | Some err => Err err
  | None => Ok f
  end.

(** [func (f *ForecastRequest) Get() ForecastResponse] *)
Definition Get `{Platform} (f : ForecastRequest) : ForecastResponse :=
  let forecastResponse := ForecastResponse_zero in
  match URL f with
  | Err err => set_Error err forecastResponse
  | Ok reqURL =>
    match http_Get reqURL with
    | Err err => set_Error err forecastResponse
    | Ok res =>
      let '(body, err) := http.ReadAll (http.Body res) in
      match err with
      | Some err => set_Error err forecastResponse
      | None =>
        if 400 <=? http.StatusCode res
        then set_Error (errors_New body) forecastResponse
        else
          let forecastResponse :=
            match strconv.Atoi (http.Header_Get (http.Header_ res) APICallsHeader) with
            | Ok callCount => set_APICallCount callCount forecastResponse
            | Err _ => forecastResponse
            end in
          match fromJSON body with
          | Err err => set_Error err forecastResponse
          | Ok forecast => set_Forecast forecast forecastResponse
          end
      end
    end
  end.

(** ** A test platform

    The counterpart of the [httptest] server of [darksky_test.go]: a platform
    whose HTTP transport answers every request with one canned response, and
    whose library calls are tabulated on the inputs the examples below use
    (an input outside a table is answered with an error or a default). *)

#[local] Set Warnings "-inexact-float".

Module TestPlatform.

(** [url.Parse] on the base URLs used below. [":"] has an empty scheme, which
    [url.Parse] rejects. *)
Definition Parse (rawURL : string) : result url.URL :=
  if String.eqb rawURL "https://api.darksky.net/forecast" then
    Ok (url.mkURL "https" "" None "api.darksky.net" "/forecast" "" false "" "")
  else if String.eqb rawURL "http://127.0.0.1:8080" then
    Ok (url.mkURL "http" "" None "127.0.0.1:8080" "" "" false "" "")
  else if String.eqb rawURL "http://127.0.0.1:8080/proxy?lang=es" then
    Ok (url.mkURL "http" "" None "127.0.0.1:8080" "/proxy" "" false "lang=es" "")
  else if String.eqb rawURL ":" then
    Err (library_error "net/url" "missing protocol scheme")
  else Err (library_error "net/url" "base URL outside the table").

(** [url.ParseQuery] on the raw queries of these base URLs. *)
Definition ParseQuery (query : string) : url.Values :=
  if String.eqb query "lang=es" then {[ "lang" := ["es"] ]} else ∅.

(** [URL.String] for a URL with a scheme and a host, no user information, and
    a path that needs no escaping. *)
Definition String_ (u : url.URL) : string :=
  url.Scheme u +:+ "://" +:+ url.Host u +:+ url.Path u +:+
  (if url.ForceQuery u || negb (String.eqb (url.RawQuery u) "")
   then "?" +:+ url.RawQuery u else "") +:+
  (if String.eqb (url.Fragment u) "" then "" else "#" +:+ url.Fragment u).

(** The [%v] rendering of the coordinates used in [darksky_test.go]. *)
Definition format_float64 (x : float) : string :=
  if (x =? 41.1234)%float then "41.1234"
  else if (x =? -81.1234)%float then "-81.1234"
  else if (x =? 41.8781)%float then "41.8781"
  else if (x =? -87.6297)%float then "-87.6297"
  else "NaN".

(** A JSON object whose [offset] is a number and whose [latitude] is an
    array: [{"offset":-6,"latitude":[]}]. *)
Definition quote : string := String (ascii_of_nat 34) "".
Definition mistyped_forecast : string :=
  "{" +:+ quote +:+ "offset" +:+ quote +:+ ":-6," +:+
  quote +:+ "latitude" +:+ quote +:+ ":[]}".

(** [json.Unmarshal] into a [Forecast]: the empty object leaves the value as
    it is; on [mistyped_forecast] the decoder stores the offset and reports
    the latitude; the other bodies used below are no JSON. *)
Definition Unmarshal (blob : string) (f : Forecast) : Forecast * option error :=
  if String.eqb blob "{}" then (f, None)
  else if String.eqb blob mistyped_forecast then
    (mkForecast (Latitude f) (Longitude f) (Timezone f) (-6) (Currently f)
       (Minutely f) (Hourly f) (Daily f) (Alerts f) (fc_Flags f),
     Some (library_error "encoding/json"
             "cannot unmarshal array into Go struct field Forecast.latitude of type float64"))
  else (f, Some (library_error "encoding/json" "invalid character")).

Definition platform (transport : string -> result http.Response) : Platform :=
  {| url_Parse := Parse;
     url_ParseQuery := ParseQuery;
     URL_String := String_;
     fmt_float64 := format_float64;
     http_Get := transport;
     json_Unmarshal := Unmarshal |}.

(** A server that answers every request with [res]. *)
Definition usingTestServer (res : http.Response) : Platform :=
  platform (fun _ => Ok res).

(** Status 500 with a plain-text body, as [errorForecastHandler] answers. *)
Definition errorForecastHandler : http.Response :=
  http.mkResponse 500 ∅ (http.mkReadCloser "A Server Error Occurred." None).

(** Status 200 with the call-count header, as [validForecastHandler] answers,
    with [body] for the forecast file. *)
Definition validForecastHandler (body : string) : http.Response :=
  http.mkResponse 200 {[ "X-Forecast-Api-Calls" := ["1"] ]}
    (http.mkReadCloser body None).

Definition key : string := "test_key".

End TestPlatform.

(** ** Auxiliary definitions for the proofs *)

(** The number a decimal numeral denotes after the digits read so far denote
    [n]. *)
Fixpoint uint_value (d : Decimal.uint) (n : Z) : Z :=
  match d with
  | Decimal.Nil => n
  | Decimal.D0 d => uint_value d (n * 10 + 0)
  | Decimal.D1 d => uint_value d (n * 10 + 1)
  | Decimal.D2 d => uint_value d (n * 10 + 2)
  | Decimal.D3 d => uint_value d (n * 10 + 3)
  | Decimal.D4 d => uint_value d (n * 10 + 4)
  | Decimal.D5 d => uint_value d (n * 10 + 5)
  | Decimal.D6 d => uint_value d (n * 10 + 6)
  | Decimal.D7 d => uint_value d (n * 10 + 7)
  | Decimal.D8 d => uint_value d (n * 10 + 8)
  | Decimal.D9 d => uint_value d (n * 10 + 9)
  end.

(** The five ways [Get] fails, and the one way it succeeds. *)
Inductive GetOutcome `{Platform} (f : ForecastRequest) : ForecastResponse -> Prop :=
| URLFailed err :
    URL f = Err err ->
    GetOutcome f (mkForecastResponse Forecast_zero 0 (Some err))
| TransportFailed reqURL err :
    URL f = Ok reqURL -> http_Get reqURL = Err err ->
    GetOutcome f (mkForecastResponse Forecast_zero 0 (Some err))
| ReadFailed reqURL res err :
    URL f = Ok reqURL -> http_Get reqURL = Ok res ->
    http.stream_err (http.Body res) = Some err ->
    GetOutcome f (mkForecastResponse Forecast_zero 0 (Some err))
| StatusFailed reqURL res :
    URL f = Ok reqURL -> http_Get reqURL = Ok res ->
    http.stream_err (http.Body res) = None ->
    400 <= http.StatusCode res ->
    GetOutcome f (mkForecastResponse Forecast_zero 0
                    (Some (errors_New (http.stream_data (http.Body res)))))
| DecodeFailed reqURL res err :
    URL f = Ok reqURL -> http_Get reqURL = Ok res ->
    http.stream_err (http.Body res) = None ->
    http.StatusCode res < 400 ->
    fromJSON (http.stream_data (http.Body res)) = Err err ->
    GetOutcome f (mkForecastResponse Forecast_zero
                    (match strconv.Atoi (http.Header_Get (http.Header_ res) APICallsHeader) with
                     | Ok callCount => callCount
                     | Err _ => 0
                     end)
                    (Some err))
| Decoded reqURL res forecast :
    URL f = Ok reqURL -> http_Get reqURL = Ok res ->
    http.stream_err (http.Body res) = None ->
    http.StatusCode res < 400 ->
    fromJSON (http.stream_data (http.Body res)) = Ok forecast ->
    GetOutcome f (mkForecastResponse forecast
                    (match strconv.Atoi (http.Header_Get (http.Header_ res) APICallsHeader) with
                     | Ok callCount => callCount
                     | Err _ => 0
                     end)
                    None).

(** Replace [Prim2SF c] for the literal [c] by its value. *)
Ltac sf_literal c :=
  let v := eval vm_compute in (Prim2SF c) in change (Prim2SF c) with v.

Ltac sf_literals :=
  sf_literal 0%float; sf_literal 360%float;
  sf_literal 22%float; sf_literal 67%float; sf_literal 113%float;
  sf_literal 157%float; sf_literal 203%float; sf_literal 247%float;
  sf_literal 293%float; sf_literal 337%float.

(** Turn a goal about [<?] and [<=?] on a bearing [b] into one about its
    IEEE 754 reading, and split on the reading. *)
Ltac by_float_cases b :=
  unfold CompassSpec.north, CompassSpec.south, CompassSpec.east,
    CompassSpec.west, CompassSpec.gt, CompassSpec.lt;
  rewrite ?ltb_spec, ?leb_spec; sf_literals;
  generalize (Prim2SF b); intros [s|s| |s m e].


(** Decide the four tests of the compass on a finite, non-negative reading:
    one comparison at a time, each turned by the lemma [order] into
    arithmetic on exponent and mantissa. *)
Ltac sf_decide order :=
  repeat match goal with
  | |- context [SFltb ?a ?b] =>
    let E := fresh "E" in
    destruct (SFltb a b) eqn:E;
    [apply order in E
    |apply not_true_iff_false in E; rewrite order in E];
    try (exfalso; lia)
  end.

(** ** Direct assignment to the exported fields without a setter *)

(** [f.ExtendHourly = extend] *)
Definition set_ExtendHourly (extend : bool) (f : ForecastRequest)
  : ForecastRequest :=
  mkForecastRequest (req_Key f) (req_Lat f) (req_Lng f) (req_Time f)
    (req_Lang f) (req_Units f) extend (req_Exclude f) (req_baseURL f).

(** [f.Exclude = exclude] *)
Definition set_Exclude (exclude : list string) (f : ForecastRequest)
  : ForecastRequest :=
  mkForecastRequest (req_Key f) (req_Lat f) (req_Lng f) (req_Time f)
    (req_Lang f) (req_Units f) (req_ExtendHourly f) exclude (req_baseURL f).

(** ** Chains of setter calls

    [f.WithLang(l).WithTime(t)...]: every setter returns its receiver, so a
    chain is the sequence of its calls on one request. *)

Inductive setter : Type :=
| CallWithBaseURL (baseURL : string)
| CallWithTime (t : Z)
| CallWithLang (l : Lang)
| CallWithUnits (u : Units).

Definition call (s : setter) (f : ForecastRequest) : ForecastRequest :=
  match s with
  | CallWithBaseURL baseURL => WithBaseURL baseURL f
  | CallWithTime t => WithTime t f
  | CallWithLang l => WithLang l f
  | CallWithUnits u => WithUnits u f
  end.

(** The request after the calls of [calls], first to last. *)
Definition chain (calls : list setter) (f : ForecastRequest) : ForecastRequest :=
  fold_left (fun f s => call s f) calls f.

(** The argument of the last call of each setter in [calls], or [d] when the
    chain has no such call. *)
Definition last_baseURL (calls : list setter) (d : string) : string :=
  fold_left (fun d s => match s with CallWithBaseURL b => b | _ => d end) calls d.
Definition last_Time (calls : list setter) (d : Z) : Z :=
  fold_left (fun d s => match s with CallWithTime t => t | _ => d end) calls d.
Definition last_Lang (calls : list setter) (d : Lang) : Lang :=
  fold_left (fun d s => match s with CallWithLang l => l | _ => d end) calls d.
Definition last_Units (calls : list setter) (d : Units) : Units :=
  fold_left (fun d s => match s with CallWithUnits u => u | _ => d end) calls d.

(** ** The declared language and unit codes *)

Definition declared_Langs : list Lang :=
  [Arabic; Bosnian; German; Greek; English; Spanish; French; Croatian;
   Italian; Dutch; Polish; Portuguese; Russian; Slovak; Swedish; Tetum;
   Turkish; Ukranian; PigLatin; Chinese; TraditionalChinese].

Definition declared_Units : list Units := [US; SI; CA; UK; UK2; AUTO].

(** ** Bytes of a string *)

(** The number of bytes of [s] equal to [c]. *)
Fixpoint count_byte (c : ascii) (s : string) : nat :=
  match s with
  | EmptyString => 0%nat
  | String c' s' => ((if Ascii.eqb c c' then 1 else 0) + count_byte c s')%nat
  end.

(** The bytes [QueryEscape] writes: the unreserved ones, [+] and [%]. *)
Definition query_safe (c : ascii) : bool :=
  url.unreserved c || Ascii.eqb c "+" || Ascii.eqb c "%".

(** ** The transport of a platform *)

(** The platform [P] with [transport] for its [http.Get]. *)
Definition with_transport (P : Platform)
    (transport : string -> result http.Response) : Platform :=
  {| url_Parse := @url_Parse P;
     url_ParseQuery := @url_ParseQuery P;
     URL_String := @URL_String P;
     fmt_float64 := @fmt_float64 P;
     http_Get := transport;
     json_Unmarshal := @json_Unmarshal P |}.

(** ** The earlier revision of [darksky.go]

    The revision without [URL]: [Get] requests the base URL with the key and
    the coordinates appended, and [WithUnits] is called [WithUnit]. The data
    model, [MakeRequest], the other setters and [fromJSON] are those above. *)

Module Earlier.

Definition WithUnit (u : Units) (f : ForecastRequest) : ForecastRequest :=
  mkForecastRequest (req_Key f) (req_Lat f) (req_Lng f) (req_Time f)
    (req_Lang f) u (req_ExtendHourly f) (req_Exclude f) (req_baseURL f).

(** [func (f *ForecastRequest) Get() ForecastResponse] *)
Definition Get `{Platform} (f : ForecastRequest) : ForecastResponse :=
  let forecastResponse := ForecastResponse_zero in
  let requestURL :=
    Sprintf_path (req_baseURL f) (req_Key f) (req_Lat f) (req_Lng f) in
  match http_Get requestURL with
  | Err err => set_Error err forecastResponse
  | Ok res =>
    let '(body, err) := http.ReadAll (http.Body res) in
    match err with
    | Some err => set_Error err forecastResponse
    | None =>
      if 400 <=? http.StatusCode res
      then set_Error (errors_New body) forecastResponse
      else
        let forecastResponse :=
          match strconv.Atoi (http.Header_Get (http.Header_ res) APICallsHeader) with
          | Ok callCount => set_APICallCount callCount forecastResponse
          | Err _ => forecastResponse
          end in
        match fromJSON body with
        | Err err => set_Error err forecastResponse
        | Ok forecast => set_Forecast forecast forecastResponse
        end
    end
  end.

End Earlier.

(** What both revisions of [Get] make of the answer of [http.Get]. *)
Definition response_of `{Platform} (answer : result http.Response)
  : ForecastResponse :=
  match answer with
  | Err err => mkForecastResponse Forecast_zero 0 (Some err)
  | Ok res =>
    match http.stream_err (http.Body res) with
    | Some err => mkForecastResponse Forecast_zero 0 (Some err)
    | None =>
      if 400 <=? http.StatusCode res
      then mkForecastResponse Forecast_zero 0
             (Some (errors_New (http.stream_data (http.Body res))))
      else
        let callCount :=
          match strconv.Atoi (http.Header_Get (http.Header_ res) APICallsHeader) with
          | Ok callCount => callCount
          | Err _ => 0
          end in
        match fromJSON (http.stream_data (http.Body res)) with
        | Err err => mkForecastResponse Forecast_zero callCount (Some err)
        | Ok forecast => mkForecastResponse forecast callCount None
        end
    end
  end.

(** A response whose body breaks off: status 500, the call-count header, and
    a read error after the first bytes. *)
Definition brokenBodyHandler : http.Response :=
  http.mkResponse 500 {[ "X-Forecast-Api-Calls" := ["7"] ]}
    (http.mkReadCloser "A Serv" (Some (library_error "io" "unexpected EOF"))).

(** ** Comparisons of binary64 values, through their IEEE 754 reading *)

(** On finite, non-negative operands [SFltb] orders by exponent, then by
    mantissa. *)
Lemma SFltb_finite_nonneg m1 e1 m2 e2 :
  SFltb (S754_finite false m1 e1) (S754_finite false m2 e2) = true <->
  e1 < e2 \/ (e1 = e2 /\ Z.pos m1 < Z.pos m2).
Proof.
  unfold SFltb, SFcompare.
  destruct (Z.compare_spec e1 e2) as [He|He|He].
  - change (PosDef.Pos.compare_cont Eq m1 m2) with (Pos.compare m1 m2).
    destruct (Pos.compare_spec m1 m2); split; intros;
      try discriminate; try reflexivity; lia.
  - split; intros; try reflexivity; lia.
  - split; intros; try discriminate; lia.
Qed.

Lemma SFleb_finite_nonneg m1 e1 m2 e2 :
  SFleb (S754_finite false m1 e1) (S754_finite false m2 e2) = true <->
  e1 < e2 \/ (e1 = e2 /\ Z.pos m1 <= Z.pos m2).
Proof.
  unfold SFleb, SFcompare.
  destruct (Z.compare_spec e1 e2) as [He|He|He].
  - change (PosDef.Pos.compare_cont Eq m1 m2) with (Pos.compare m1 m2).
    destruct (Pos.compare_spec m1 m2); split; intros;
      try discriminate; try reflexivity; lia.
  - split; intros; try reflexivity; lia.
  - split; intros; try discriminate; lia.
Qed.

Section Compass.
Import CompassSpec.

(** North and south never fire together, whatever the bearing (NaN and the
    infinities included). *)
Lemma north_south_exclusive b : north b && south b = false.
Proof.
  apply not_true_iff_false. by_float_cases b.
  - destruct s; vm_compute; discriminate.
  - destruct s; vm_compute; discriminate.
  - vm_compute; discriminate.
  - destruct s; [vm_compute; discriminate|].
    rewrite !andb_true_iff, !orb_true_iff, !SFltb_finite_nonneg. lia.
Qed.

Lemma east_west_exclusive b : east b && west b = false.
Proof.
  apply not_true_iff_false. by_float_cases b.
  - destruct s; vm_compute; discriminate.
  - destruct s; vm_compute; discriminate.
  - vm_compute; discriminate.
  - destruct s; [vm_compute; discriminate|].
    rewrite !andb_true_iff, !SFltb_finite_nonneg. lia.
Qed.

(** On [0, 360] some test fires. *)
Lemma some_test_fires b :
  (0 <=? b)%float = true -> (b <=? 360)%float = true ->
  north b || south b || east b || west b = true.
Proof.
  by_float_cases b.
  - intros _ _. destruct s; vm_compute; reflexivity.
  - destruct s; vm_compute; discriminate.
  - vm_compute; discriminate.
  - destruct s; [vm_compute; discriminate|]. intros _ H.
    apply SFleb_finite_nonneg in H.
    rewrite !orb_true_iff, !andb_true_iff, !SFltb_finite_nonneg. lia.
Qed.

(** The code computes the specification's label. *)
Lemma WindDirection_label dp : WindDirection dp = label (dp_WindBearing dp).
Proof.
  unfold WindDirection, label, north, south, east, west, gt, lt, letter.
  destruct (293 <? dp_WindBearing dp)%float, (dp_WindBearing dp <? 67)%float,
    (dp_WindBearing dp <? 247)%float, (113 <? dp_WindBearing dp)%float,
    (22 <? dp_WindBearing dp)%float, (dp_WindBearing dp <? 157)%float,
    (dp_WindBearing dp <? 337)%float, (203 <? dp_WindBearing dp)%float;
    reflexivity.
Qed.

(** A label built from tests of which one fires, north and south not both,
    east and west not both, is one of the eight. *)
Lemma label_is_compass_label b :
  north b || south b || east b || west b = true ->
  north b && south b = false ->
  east b && west b = false ->
  label b ∈ compass_labels /\ (String.length (label b) = 1 \/ String.length (label b) = 2)%nat.
Proof.
  unfold label, letter, compass_labels.
  destruct (north b), (south b), (east b), (west b); simpl;
    intros; try discriminate; (split; [set_solver | auto]).
Qed.

End Compass.

(** C1: for every data point, [WindDirection] is the concatenation, in the
    order N, S, E, W, of the letters whose test fires -- N when the bearing
    is above 293 or below 67, S when it is between 113 and 247, E between 22
    and 157, W between 203 and 337, all strict -- so 147 gives SE, 0 gives N,
    336 gives NW, and a bearing equal to a threshold does not fire the test
    that has it as a boundary (the label at each threshold is that of the
    other tests alone). *)
Theorem WindDirection_spec :
  (forall dp : DataPoint,
     WindDirection dp = CompassSpec.label (dp_WindBearing dp)) /\
  (WindDirection (DataPoint_with_WindBearing 147) = "SE" /\
   WindDirection (DataPoint_with_WindBearing 0) = "N" /\
   WindDirection (DataPoint_with_WindBearing 336) = "NW") /\
  (CompassSpec.east 22 = false /\ CompassSpec.north 67 = false /\
   CompassSpec.south 113 = false /\ CompassSpec.east 157 = false /\
   CompassSpec.west 203 = false /\ CompassSpec.south 247 = false /\
   CompassSpec.north 293 = false /\ CompassSpec.west 337 = false) /\
  (WindDirection (DataPoint_with_WindBearing 22) = "N" /\
   WindDirection (DataPoint_with_WindBearing 67) = "E" /\
   WindDirection (DataPoint_with_WindBearing 113) = "E" /\
   WindDirection (DataPoint_with_WindBearing 157) = "S" /\
   WindDirection (DataPoint_with_WindBearing 203) = "S" /\
   WindDirection (DataPoint_with_WindBearing 247) = "W" /\
   WindDirection (DataPoint_with_WindBearing 293) = "W" /\
   WindDirection (DataPoint_with_WindBearing 337) = "N").
Proof.
  split; [exact WindDirection_label|].
  repeat split; vm_compute; reflexivity.
Qed.

(** C9: for a bearing in the closed interval from 0 to 360, [WindDirection]
    is not empty and is one of the eight compass labels, of one or two
    letters; north never fires with south, nor east with west. *)
Theorem WindDirection_compass_label (dp : DataPoint) :
  (0 <=? dp_WindBearing dp)%float = true ->
  (dp_WindBearing dp <=? 360)%float = true ->
  WindDirection dp ∈ compass_labels /\
  WindDirection dp <> "" /\
  (String.length (WindDirection dp) = 1 \/
   String.length (WindDirection dp) = 2)%nat /\
  CompassSpec.north (dp_WindBearing dp) && CompassSpec.south (dp_WindBearing dp) = false /\
  CompassSpec.east (dp_WindBearing dp) && CompassSpec.west (dp_WindBearing dp) = false.
Proof.
  intros Hlo Hhi. rewrite WindDirection_label.
  pose proof (north_south_exclusive (dp_WindBearing dp)) as Hns.
  pose proof (east_west_exclusive (dp_WindBearing dp)) as Hew.
  destruct (label_is_compass_label (dp_WindBearing dp)
              (some_test_fires _ Hlo Hhi) Hns Hew) as [Hin Hlen].
  repeat split; try assumption.
  intros E. rewrite E in Hlen. simpl in Hlen. lia.
Qed.

Lemma WindDirection_compass_label_witness :
  WindDirection (DataPoint_with_WindBearing 147) ∈ compass_labels /\
  WindDirection (DataPoint_with_WindBearing 147) <> "" /\
  (String.length (WindDirection (DataPoint_with_WindBearing 147)) = 1 \/
   String.length (WindDirection (DataPoint_with_WindBearing 147)) = 2)%nat /\
  CompassSpec.north 147 && CompassSpec.south 147 = false /\
  CompassSpec.east 147 && CompassSpec.west 147 = false.
Proof.
  apply (WindDirection_compass_label (DataPoint_with_WindBearing 147));
    vm_compute; reflexivity.
Defined.

(** ** Sorting the keys of [url.Values] *)

Lemma string_leb_trans (s1 s2 s3 : string) :
  String.leb s1 s2 = true -> String.leb s2 s3 = true -> String.leb s1 s3 = true.
Proof.
  unfold String.leb. revert s2 s3.
  induction s1 as [|c1 s1 IH]; intros [|c2 s2] [|c3 s3]; simpl; try done.
  unfold Ascii.compare.
  destruct (N.compare_spec (N_of_ascii c1) (N_of_ascii c2)),
    (N.compare_spec (N_of_ascii c2) (N_of_ascii c3)),
    (N.compare_spec (N_of_ascii c1) (N_of_ascii c3));
    try done; try lia; eauto.
Qed.

#[global] Instance string_le_trans : Transitive url.string_le.
Proof. intros s1 s2 s3. apply string_leb_trans. Qed.

#[global] Instance string_le_total : Total url.string_le.
Proof. intros s1 s2. apply String.leb_total. Qed.

Lemma sorted_keys_sorted (v : url.Values) :
  StronglySorted url.string_le (url.sorted_keys v).
Proof. apply StronglySorted_merge_sort; apply _. Qed.

Lemma elem_of_sorted_keys (v : url.Values) (k : string) :
  k ∈ url.sorted_keys v <-> is_Some (v !! k).
Proof.
  unfold url.sorted_keys. rewrite merge_sort_Permutation.
  rewrite list_elem_of_fmap. split.
  - intros [[k' x] [-> Hin]]. apply elem_of_map_to_list in Hin. eauto.
  - intros [x Hx]. exists (k, x). split; [done|]. by apply elem_of_map_to_list.
Qed.

Lemma values_at_Add (v : url.Values) (key value k : string) :
  url.values_at (url.Add v key value) k =
  if decide (key = k) then url.values_at v k ++ [value] else url.values_at v k.
Proof.
  unfold url.values_at, url.Add. rewrite lookup_insert.
  destruct (decide (key = k)) as [->|]; done.
Qed.

Lemma items_of_Add (v : url.Values) (key value k : string) :
  url.items_of (url.Add v key value) k =
  if decide (key = k)
  then url.items_of v k ++ [url.QueryEscape k +:+ "=" +:+ url.QueryEscape value]
  else url.items_of v k.
Proof.
  unfold url.items_of. rewrite values_at_Add.
  destruct (decide (key = k)); [|done]. by rewrite map_app.
Qed.

(** In the items of a query to which [lang] and then [units] were added, the
    added [lang] item stands before the added [units] item. *)
Lemma items_lang_before_units (v : url.Values) (l un : string) :
  exists pre mid post,
    url.items (url.Add (url.Add v "lang" l) "units" un) =
    pre ++ ["lang=" +:+ url.QueryEscape l] ++ mid ++
    ["units=" +:+ url.QueryEscape un] ++ post.
Proof.
  set (v' := url.Add (url.Add v "lang" l) "units" un).
  assert (Hl : "lang" ∈ url.sorted_keys v').
  { apply elem_of_sorted_keys. unfold v', url.Add.
    rewrite lookup_insert_ne by done. rewrite lookup_insert_eq. eauto. }
  assert (Hu : "units" ∈ url.sorted_keys v').
  { apply elem_of_sorted_keys. unfold v', url.Add.
    rewrite lookup_insert_eq. eauto. }
  pose proof (sorted_keys_sorted v') as Hs.
  apply list_elem_of_split in Hl as (k1 & k2 & Hk). rewrite Hk in Hu, Hs.
  assert (Hu2 : "units" ∈ k2).
  { apply elem_of_app in Hu as [Hu|Hu].
    - exfalso.
      assert (Hle : url.string_le "units" "lang").
      { eapply (StronglySorted_app_1_elem_of _ k1 ("lang" :: k2)); eauto.
        apply elem_of_cons; by left. }
      vm_compute in Hle. discriminate.
    - apply elem_of_cons in Hu as [Hu|Hu]; [discriminate|done]. }
  apply list_elem_of_split in Hu2 as (k2a & k2b & ->).
  unfold url.items. rewrite Hk.
  rewrite flat_map_app. simpl. rewrite flat_map_app. simpl.
  unfold v' at 2 4. rewrite !items_of_Add.
  repeat (destruct (decide _) as [E|E]; try discriminate E; try (exfalso; by apply E)).
  exists (flat_map (url.items_of v') k1 ++ url.items_of v "lang"),
    (flat_map (url.items_of v') k2a ++ url.items_of v "units"),
    (flat_map (url.items_of v') k2b).
  change (url.QueryEscape "lang") with "lang".
  change (url.QueryEscape "units") with "units".
  simpl. rewrite <- !app_assoc. simpl. reflexivity.
Qed.

(** With nothing else in the query, these are the only two items. *)
Lemma items_lang_units_only (l un : string) :
  url.items (url.Add (url.Add ∅ "lang" l) "units" un) =
  ["lang=" +:+ url.QueryEscape l; "units=" +:+ url.QueryEscape un].
Proof. vm_compute. reflexivity. Qed.

(** ** Decimal numerals: [FormatInt] against the digit loop of [Atoi] *)

Lemma digits_string_of_uint (d : Decimal.uint) (n : Z) :
  strconv.digits (NilEmpty.string_of_uint d) n = Some (uint_value d n).
Proof. revert n. induction d; intros n; simpl; auto. Qed.

Lemma uint_value_acc (d : Decimal.uint) (acc : positive) :
  uint_value d (Z.pos acc) = Z.pos (Pos.of_uint_acc d acc).
Proof.
  revert acc. induction d; intros acc; simpl; auto;
    rewrite <- IHd; f_equal; lia.
Qed.

Lemma uint_value_of_uint (d : Decimal.uint) :
  uint_value d 0 = Z.of_N (Pos.of_uint d).
Proof.
  induction d; simpl; auto;
    match goal with |- uint_value _ ?k = _ => apply (uint_value_acc _ (Z.to_pos k)) end.
Qed.

Lemma digits_FormatInt_pos (p : positive) :
  strconv.FormatInt (Z.pos p) = NilEmpty.string_of_uint (Pos.to_uint p) /\
  strconv.digits (NilEmpty.string_of_uint (Pos.to_uint p)) 0 = Some (Z.pos p).
Proof.
  split.
  - unfold strconv.FormatInt. simpl.
    pose proof (DecimalPos.Unsigned.to_uint_nonnil p) as Hnil.
    destruct (Pos.to_uint p); [congruence|reflexivity..].
  - rewrite digits_string_of_uint, uint_value_of_uint,
      DecimalPos.Unsigned.of_to. reflexivity.
Qed.

(** The numeral of a positive number consists of decimal digits, which
    denote it. *)
Lemma digits_FormatInt (t : Z) :
  0 < t -> strconv.digits (strconv.FormatInt t) 0 = Some t.
Proof.
  destruct t as [|p|p]; try lia. intros _.
  destruct (digits_FormatInt_pos p) as [-> ->]. reflexivity.
Qed.



(** ** Rendering the request URL *)

Section Rendering.
Context `{Platform}.

(** The URL of a request is the URL of the same request with the time unset,
    its path extended by the time when the time is positive. *)
Lemma URL_reqURL_by_time (f : ForecastRequest) :
  URL_reqURL f =
  match URL_reqURL (WithTime (-1) f) with
  | Err err => Err err
  | Ok reqURL =>
    Ok (if 0 <? req_Time f
        then url.set_Path reqURL
               (url.Path reqURL +:+ "," +:+ strconv.FormatInt (req_Time f))
        else reqURL)
  end.
Proof.
  unfold URL_reqURL, WithTime. simpl.
  destruct (url_Parse (req_baseURL f)) as [base|err]; [|reflexivity].
  destruct (0 <? req_Time f); reflexivity.
Qed.

(** What [URL] builds from a base URL that parses, the time unset. *)
Lemma URL_reqURL_unset (f : ForecastRequest) (base : url.URL) :
  req_Time f = -1 ->
  url_Parse (req_baseURL f) = Ok base ->
  URL_reqURL f =
  Ok (url.set_RawQuery
        (url.set_Path base
           (url.Path base +:+ "/" +:+ req_Key f +:+ "/" +:+
            fmt_float64 (req_Lat f) +:+ "," +:+ fmt_float64 (req_Lng f)))
        (url.Encode
           (url.Add (url.Add (URL_Query base) "lang" (req_Lang f))
              "units" (req_Units f)))).
Proof.
  intros Ht Hp. unfold URL_reqURL. rewrite Hp, Ht. reflexivity.
Qed.

(** A later [WithLang] or [WithUnits] replaces the value an earlier one
    set. *)
Lemma WithLang_WithLang (f : ForecastRequest) (l1 l2 : Lang) :
  WithLang l2 (WithLang l1 f) = WithLang l2 f.
Proof. reflexivity. Qed.

Lemma WithUnits_WithUnits (f : ForecastRequest) (u1 u2 : Units) :
  WithUnits u2 (WithUnits u1 f) = WithUnits u2 f.
Proof. reflexivity. Qed.

End Rendering.

(** C2, amended: for a request whose time is the unset value -1, [URL]
    returns the error of [url.Parse] when the base URL does not parse;
    when it parses, [URL] returns no error and renders the parsed base URL
    with the path [{base path}/{key}/{lat},{lng}], without a time segment,
    and with a query whose items hold [lang={Lang}] before [units={Units}]
    (query-escaped), which are its only items when the base URL has no query
    of its own. *)
Theorem URL_time_unset `{Platform} (f : ForecastRequest) :
  req_Time f = -1 ->
  match url_Parse (req_baseURL f) with
  | Err err => URL f = Err err
  | Ok base =>
    exists reqURL : url.URL,
      URL f = Ok (URL_String reqURL) /\
      URL_reqURL f = Ok reqURL /\
      url.Path reqURL =
        url.Path base +:+ "/" +:+ req_Key f +:+ "/" +:+
        fmt_float64 (req_Lat f) +:+ "," +:+ fmt_float64 (req_Lng f) /\
      (exists pre mid post : list string,
         url.RawQuery reqURL =
         url.join "&"
           (pre ++ ["lang=" +:+ url.QueryEscape (req_Lang f)] ++ mid ++
            ["units=" +:+ url.QueryEscape (req_Units f)] ++ post)) /\
      (URL_Query base = ∅ ->
       url.RawQuery reqURL =
       "lang=" +:+ url.QueryEscape (req_Lang f) +:+ "&" +:+
       "units=" +:+ url.QueryEscape (req_Units f)) /\
      url.set_RawQuery (url.set_Path reqURL (url.Path base)) (url.RawQuery base)
      = base
  end.
Proof.
  intros Ht. destruct (url_Parse (req_baseURL f)) as [base|err] eqn:Hp.
  - pose proof (URL_reqURL_unset f base Ht Hp) as Hu.
    eexists. split; [unfold URL; rewrite Hu; reflexivity|].
    split; [exact Hu|]. split; [reflexivity|]. split; [|split].
    + destruct (items_lang_before_units (URL_Query base) (req_Lang f) (req_Units f))
        as (pre & mid & post & Hi).
      exists pre, mid, post. simpl. unfold url.Encode. rewrite Hi. reflexivity.
    + intros ->. simpl. unfold url.Encode. rewrite items_lang_units_only.
      reflexivity.
    + destruct base; reflexivity.
  - unfold URL, URL_reqURL. rewrite Hp. reflexivity.
Qed.

Lemma URL_time_unset_witness :
  exists reqURL : url.URL,
    @URL (TestPlatform.usingTestServer TestPlatform.errorForecastHandler)
      (MakeRequest "foo" 41.1234 (-81.1234)) =
    Ok ("https://api.darksky.net/forecast/foo/41.1234,-81.1234?lang=en&units=us") /\
    url.Path reqURL = "/forecast/foo/41.1234,-81.1234" /\
    url.RawQuery reqURL = "lang=en&units=us".
Proof.
  destruct (@URL_time_unset
              (TestPlatform.usingTestServer TestPlatform.errorForecastHandler)
              (MakeRequest "foo" 41.1234 (-81.1234)) eq_refl)
    as (reqURL & Hurl & Hreq & Hpath & _ & Hquery & _).
  exists reqURL. split; [|split].
  - vm_compute. reflexivity.
  - rewrite Hpath. vm_compute. reflexivity.
  - rewrite Hquery; vm_compute; reflexivity.
Defined.

(** C2 as stated fails: a request with the time unset whose base URL does not
    parse gets an error from [URL]. *)
Lemma URL_time_unset_parse_error :
  req_Time (WithBaseURL ":" (MakeRequest "foo" 41.1234 (-81.1234))) = -1 /\
  @URL (TestPlatform.usingTestServer TestPlatform.errorForecastHandler)
    (WithBaseURL ":" (MakeRequest "foo" 41.1234 (-81.1234))) =
  Err (library_error "net/url" "missing protocol scheme").
Proof. split; reflexivity. Qed.

(** C3: for a request whose time is a positive integer, [URL] renders the
    URL of the time-unset case with one more segment appended to its path: a
    comma and the decimal numeral of the time, which consists of digits
    only. *)
Theorem URL_time_positive `{Platform} (f : ForecastRequest) :
  0 < req_Time f ->
  URL_reqURL f =
    match URL_reqURL (WithTime (-1) f) with
    | Err err => Err err
    | Ok reqURL =>
      Ok (url.set_Path reqURL
            (url.Path reqURL +:+ "," +:+ strconv.FormatInt (req_Time f)))
    end /\
  URL f =
    match URL_reqURL (WithTime (-1) f) with
    | Err err => Err err
    | Ok reqURL =>
      Ok (URL_String
            (url.set_Path reqURL
               (url.Path reqURL +:+ "," +:+ strconv.FormatInt (req_Time f))))
    end /\
  strconv.digits (strconv.FormatInt (req_Time f)) 0 = Some (req_Time f).
Proof.
  intros Ht.
  assert (E : (0 <? req_Time f) = true) by (apply Z.ltb_lt; exact Ht).
  pose proof (URL_reqURL_by_time f) as Hu. rewrite E in Hu.
  split; [exact Hu|]. split; [|apply digits_FormatInt; exact Ht].
  unfold URL. rewrite Hu.
  destruct (URL_reqURL (WithTime (-1) f)); reflexivity.
Qed.

Lemma URL_time_positive_witness :
  @URL (TestPlatform.usingTestServer TestPlatform.errorForecastHandler)
    (WithTime 12345 (WithUnits SI (WithLang Spanish
       (MakeRequest "foo" 41.1234 (-81.1234))))) =
  Ok "https://api.darksky.net/forecast/foo/41.1234,-81.1234,12345?lang=es&units=si".
Proof.
  destruct (@URL_time_positive
              (TestPlatform.usingTestServer TestPlatform.errorForecastHandler)
              (WithTime 12345 (WithUnits SI (WithLang Spanish
                 (MakeRequest "foo" 41.1234 (-81.1234)))))
              eq_refl) as (_ & Hurl & _).
  rewrite Hurl. vm_compute. reflexivity.
Defined.

(** C4: [WithTime] is documented to make the forecast be retrieved for the
    given time, and the only unset value is the -1 of [MakeRequest]; yet
    after [WithTime(0)], and after [WithTime(-2)], where the time is not -1,
    [URL] renders the URL of the time-unset case: the path gets no [,{time}]
    segment, because the guard is [f.Time > 0]. *)
Lemma URL_time_zero_no_segment :
  (req_Time (WithTime 0 (MakeRequest "foo" 41.1234 (-81.1234))) <> -1 /\
   @URL (TestPlatform.usingTestServer TestPlatform.errorForecastHandler)
     (WithTime 0 (MakeRequest "foo" 41.1234 (-81.1234))) =
   Ok "https://api.darksky.net/forecast/foo/41.1234,-81.1234?lang=en&units=us") /\
  (req_Time (WithTime (-2) (MakeRequest "foo" 41.1234 (-81.1234))) <> -1 /\
   @URL (TestPlatform.usingTestServer TestPlatform.errorForecastHandler)
     (WithTime (-2) (MakeRequest "foo" 41.1234 (-81.1234))) =
   Ok "https://api.darksky.net/forecast/foo/41.1234,-81.1234?lang=en&units=us").
Proof. repeat split; try discriminate; vm_compute; reflexivity. Qed.

(** C8, amended: rendering after [WithLang(l1)], [WithLang(l2)] and
    [WithUnits(u1)], [WithUnits(u2)] is rendering after [WithLang(l2)] and
    [WithUnits(u2)] alone. The query encodes the parameters of the base
    URL's own query with [l2] added as the last value of [lang] and [u2] as
    the last value of [units], and nothing of [l1] or [u1]; when the base
    URL has no [lang] (no [units]) parameter of its own, [lang] has the
    single value [l2] ([units] the single value [u2]), and when it has no
    query at all the query is [lang={l2}&units={u2}], query-escaped. *)
Theorem setters_override `{Platform} (f : ForecastRequest)
    (l1 l2 : Lang) (u1 u2 : Units) :
  URL (WithLang l2 (WithLang l1 f)) = URL (WithLang l2 f) /\
  URL (WithUnits u2 (WithUnits u1 f)) = URL (WithUnits u2 f) /\
  URL (WithUnits u2 (WithUnits u1 (WithLang l2 (WithLang l1 f)))) =
    URL (WithUnits u2 (WithLang l2 f)) /\
  match url_Parse (req_baseURL f) with
  | Err err => URL (WithUnits u2 (WithLang l2 f)) = Err err
  | Ok base =>
    exists (reqURL : url.URL) (v : url.Values),
      URL_reqURL (WithUnits u2 (WithLang l2 f)) = Ok reqURL /\
      url.RawQuery reqURL = url.Encode v /\
      url.values_at v "lang" = url.values_at (URL_Query base) "lang" ++ [l2] /\
      url.values_at v "units" = url.values_at (URL_Query base) "units" ++ [u2] /\
      (forall k, k <> "lang" -> k <> "units" ->
                 url.values_at v k = url.values_at (URL_Query base) k) /\
      (URL_Query base !! "lang" = None -> url.values_at v "lang" = [l2]) /\
      (URL_Query base !! "units" = None -> url.values_at v "units" = [u2]) /\
      (URL_Query base = ∅ ->
       url.RawQuery reqURL =
       "lang=" +:+ url.QueryEscape l2 +:+ "&" +:+ "units=" +:+ url.QueryEscape u2)
  end.
Proof.
  split; [reflexivity|]. split; [reflexivity|]. split; [reflexivity|].
  destruct (url_Parse (req_baseURL f)) as [base|err] eqn:Hp.
  - unfold URL_reqURL. simpl. rewrite Hp.
    eexists. exists (url.Add (url.Add (URL_Query base) "lang" l2) "units" u2).
    split; [reflexivity|]. split; [by destruct (0 <? req_Time f)|].
    assert (Hl : url.values_at
                   (url.Add (url.Add (URL_Query base) "lang" l2) "units" u2) "lang" =
                 url.values_at (URL_Query base) "lang" ++ [l2]).
    { rewrite !values_at_Add.
      repeat (destruct (decide _) as [E|E]; try discriminate E;
              try (exfalso; by apply E)). reflexivity. }
    assert (Hu : url.values_at
                   (url.Add (url.Add (URL_Query base) "lang" l2) "units" u2) "units" =
                 url.values_at (URL_Query base) "units" ++ [u2]).
    { rewrite !values_at_Add.
      repeat (destruct (decide _) as [E|E]; try discriminate E;
              try (exfalso; by apply E)). reflexivity. }
    split; [exact Hl|]. split; [exact Hu|]. split; [|split; [|split]].
    + intros k Hkl Hku. rewrite !values_at_Add.
      repeat case_decide; congruence.
    + intros Hn. rewrite Hl. unfold url.values_at. rewrite Hn. reflexivity.
    + intros Hn. rewrite Hu. unfold url.values_at. rewrite Hn. reflexivity.
    + intros ->. destruct (0 <? req_Time f); simpl;
        unfold url.Encode; rewrite items_lang_units_only; reflexivity.
  - unfold URL, URL_reqURL. simpl. rewrite Hp. reflexivity.
Qed.

(** C8 as stated fails: with a base URL that carries [lang=es] in its own
    query, rendering after [WithLang(French)], [WithLang(Spanish)] has
    [lang=es] twice. *)
Lemma WithLang_base_query_duplicate :
  @URL (TestPlatform.usingTestServer TestPlatform.errorForecastHandler)
    (WithLang Spanish (WithLang French
       (WithBaseURL "http://127.0.0.1:8080/proxy?lang=es"
          (MakeRequest "foo" 41.1234 (-81.1234))))) =
  Ok "http://127.0.0.1:8080/proxy/foo/41.1234,-81.1234?lang=es&lang=es&units=us".
Proof. vm_compute. reflexivity. Qed.

(** ** Executing the request *)

Section Executing.
Context `{Platform}.

(** [Get] always returns a response, by one of these six ways. *)
Lemma Get_outcome (f : ForecastRequest) : GetOutcome f (Get f).
Proof.
  unfold Get.
  destruct (URL f) as [reqURL|err] eqn:Hu; [|by eapply URLFailed].
  destruct (http_Get reqURL) as [res|err] eqn:Hg; [|by eapply TransportFailed].
  unfold http.ReadAll.
  destruct (http.stream_err (http.Body res)) as [err|] eqn:Hr;
    [by eapply ReadFailed|].
  destruct (400 <=? http.StatusCode res) eqn:Hs.
  { eapply StatusFailed; eauto. by apply Z.leb_le. }
  apply Z.leb_gt in Hs.
  destruct (fromJSON (http.stream_data (http.Body res))) as [forecast|err] eqn:Hj.
  - destruct (strconv.Atoi _) eqn:Ha.
    + pose proof (Decoded f reqURL res forecast Hu Hg Hr Hs Hj) as Ho.
      rewrite Ha in Ho. exact Ho.
    + pose proof (Decoded f reqURL res forecast Hu Hg Hr Hs Hj) as Ho.
      rewrite Ha in Ho. exact Ho.
  - destruct (strconv.Atoi _) eqn:Ha.
    + pose proof (DecodeFailed f reqURL res err Hu Hg Hr Hs Hj) as Ho.
      rewrite Ha in Ho. exact Ho.
    + pose proof (DecodeFailed f reqURL res err Hu Hg Hr Hs Hj) as Ho.
      rewrite Ha in Ho. exact Ho.
Qed.

(** The response to a body that was read, by status. *)
Lemma Get_body_read (f : ForecastRequest) (reqURL : string)
    (res : http.Response) :
  URL f = Ok reqURL -> http_Get reqURL = Ok res ->
  http.stream_err (http.Body res) = None ->
  Get f =
  if 400 <=? http.StatusCode res
  then mkForecastResponse Forecast_zero 0
         (Some (errors_New (http.stream_data (http.Body res))))
  else
    let callCount :=
      match strconv.Atoi (http.Header_Get (http.Header_ res) APICallsHeader) with
      | Ok callCount => callCount
      | Err _ => 0
      end in
    match fromJSON (http.stream_data (http.Body res)) with
    | Err err => mkForecastResponse Forecast_zero callCount (Some err)
    | Ok forecast => mkForecastResponse forecast callCount None
    end.
Proof.
  intros Hu Hg Hr. unfold Get. rewrite Hu, Hg. unfold http.ReadAll. rewrite Hr.
  destruct (400 <=? http.StatusCode res); [reflexivity|].
  destruct (strconv.Atoi _), (fromJSON _); reflexivity.
Qed.

End Executing.

(** C5: when the response of [Get] has an error, its forecast is the zero
    value, and the error is that of one of the five failure branches. Each
    of the five -- URL construction, transport, reading the body, a status
    of 400 or more, decoding -- puts its error in the response and leaves
    the forecast at the zero value, whatever the decoder had written before
    it failed. [Get] is a total function: the failure is in the response it
    returns. *)
Theorem Get_error_zero_forecast `{Platform} (f : ForecastRequest) :
  (resp_Error (Get f) <> None ->
   resp_Forecast (Get f) = Forecast_zero /\
   exists err : error,
     resp_Error (Get f) = Some err /\
     (URL f = Err err \/
      exists reqURL : string,
        URL f = Ok reqURL /\
        (http_Get reqURL = Err err \/
         exists res : http.Response,
           http_Get reqURL = Ok res /\
           (http.ReadAll (http.Body res) =
              (http.stream_data (http.Body res), Some err) \/
            http.ReadAll (http.Body res) =
              (http.stream_data (http.Body res), None) /\
            (400 <= http.StatusCode res /\
             err = errors_New (http.stream_data (http.Body res)) \/
             http.StatusCode res < 400 /\
             fromJSON (http.stream_data (http.Body res)) = Err err))))) /\
  (forall err : error,
     URL f = Err err ->
     resp_Error (Get f) = Some err /\ resp_Forecast (Get f) = Forecast_zero) /\
  (forall (reqURL : string) (err : error),
     URL f = Ok reqURL ->
     http_Get reqURL = Err err ->
     resp_Error (Get f) = Some err /\ resp_Forecast (Get f) = Forecast_zero) /\
  (forall (reqURL : string) (res : http.Response) (body : string) (err : error),
     URL f = Ok reqURL ->
     http_Get reqURL = Ok res ->
     http.ReadAll (http.Body res) = (body, Some err) ->
     resp_Error (Get f) = Some err /\ resp_Forecast (Get f) = Forecast_zero) /\
  (forall (reqURL : string) (res : http.Response) (body : string),
     URL f = Ok reqURL ->
     http_Get reqURL = Ok res ->
     http.ReadAll (http.Body res) = (body, None) ->
     400 <= http.StatusCode res ->
     resp_Error (Get f) = Some (errors_New body) /\
     resp_Forecast (Get f) = Forecast_zero) /\
  (forall (reqURL : string) (res : http.Response) (body : string)
          (written : Forecast) (err : error),
     URL f = Ok reqURL ->
     http_Get reqURL = Ok res ->
     http.ReadAll (http.Body res) = (body, None) ->
     http.StatusCode res < 400 ->
     json_Unmarshal body Forecast_zero = (written, Some err) ->
     resp_Error (Get f) = Some err /\ resp_Forecast (Get f) = Forecast_zero).
Proof.
  split.
  { destruct (Get_outcome f) as
      [err Hu|reqURL err Hu Hg|reqURL res err Hu Hg Hr|reqURL res Hu Hg Hr Hs
      |reqURL res err Hu Hg Hr Hs Hj|reqURL res forecast Hu Hg Hr Hs Hj];
      simpl; intros Herr; try congruence; (split; [reflexivity|]); eexists;
      (split; [reflexivity|]).
    - by left.
    - right. exists reqURL. split; [done|]. by left.
    - right. exists reqURL. split; [done|]. right. exists res. split; [done|].
      left. unfold http.ReadAll. by rewrite Hr.
    - right. exists reqURL. split; [done|]. right. exists res. split; [done|].
      right. unfold http.ReadAll. rewrite Hr. split; [done|]. by left.
    - right. exists reqURL. split; [done|]. right. exists res. split; [done|].
      right. unfold http.ReadAll. rewrite Hr. split; [done|]. by right. }
  split.
  { intros err Hu. unfold Get. rewrite Hu. split; reflexivity. }
  split.
  { intros reqURL err Hu Hg. unfold Get. rewrite Hu, Hg. split; reflexivity. }
  split.
  { intros reqURL res body err Hu Hg Hr. unfold Get. rewrite Hu, Hg, Hr.
    split; reflexivity. }
  split.
  - intros reqURL res body Hu Hg Hr Hs.
    unfold http.ReadAll in Hr. injection Hr as <- Hr.
    rewrite (Get_body_read f reqURL res Hu Hg Hr).
    assert (E : (400 <=? http.StatusCode res) = true) by (by apply Z.leb_le).
    rewrite E. split; reflexivity.
  - intros reqURL res body written err Hu Hg Hr Hs Hj.
    unfold http.ReadAll in Hr. injection Hr as <- Hr.
    rewrite (Get_body_read f reqURL res Hu Hg Hr).
    assert (E : (400 <=? http.StatusCode res) = false) by (by apply Z.leb_gt).
    rewrite E. cbv zeta. unfold fromJSON. rewrite Hj. split; reflexivity.
Qed.

Lemma Get_error_zero_forecast_witness :
  @Get (TestPlatform.usingTestServer
          (TestPlatform.validForecastHandler TestPlatform.mistyped_forecast))
    (WithBaseURL "http://127.0.0.1:8080"
       (MakeRequest TestPlatform.key 41.8781 (-87.6297))) =
  mkForecastResponse Forecast_zero 1
    (Some (library_error "encoding/json"
             "cannot unmarshal array into Go struct field Forecast.latitude of type float64")) /\
  resp_Forecast
    (@Get (TestPlatform.usingTestServer
             (TestPlatform.validForecastHandler TestPlatform.mistyped_forecast))
       (WithBaseURL "http://127.0.0.1:8080"
          (MakeRequest TestPlatform.key 41.8781 (-87.6297)))) = Forecast_zero.
Proof.
  destruct (@Get_error_zero_forecast
              (TestPlatform.usingTestServer
                 (TestPlatform.validForecastHandler TestPlatform.mistyped_forecast))
              (WithBaseURL "http://127.0.0.1:8080"
                 (MakeRequest TestPlatform.key 41.8781 (-87.6297))))
    as (Herror & _ & _ & _ & _ & Hdecode).
  split; [vm_compute; reflexivity|].
  apply (Hdecode
           "http://127.0.0.1:8080/test_key/41.8781,-87.6297?lang=en&units=us"
           (TestPlatform.validForecastHandler TestPlatform.mistyped_forecast)
           TestPlatform.mistyped_forecast
           (mkForecast 0%float 0%float "" (-6) DataPoint_zero DataBlock_zero
              DataBlock_zero DataBlock_zero [] Flags_zero)
           (library_error "encoding/json"
              "cannot unmarshal array into Go struct field Forecast.latitude of type float64")).
  - vm_compute. reflexivity.
  - reflexivity.
  - reflexivity.
  - vm_compute. reflexivity.
  - vm_compute. reflexivity.
Defined.





(** C10: when the status is below 400, the call-count header parses as [n]
    and the body does not decode, the response of [Get] has the decoding
    error together with the call count [n]: an error response need not have
    its other fields at zero. *)
Theorem Get_decode_error_keeps_call_count `{Platform} (f : ForecastRequest)
    (reqURL : string) (res : http.Response) (body : string) (n : Z)
    (err : error) :
  URL f = Ok reqURL ->
  http_Get reqURL = Ok res ->
  http.ReadAll (http.Body res) = (body, None) ->
  http.StatusCode res < 400 ->
  strconv.Atoi (http.Header_Get (http.Header_ res) APICallsHeader) = Ok n ->
  fromJSON body = Err err ->
  Get f = mkForecastResponse Forecast_zero n (Some err) /\
  resp_Error (Get f) <> None /\
  resp_APICallCount (Get f) = n.
Proof.
  intros Hu Hg Hr Hs Ha Hj. unfold http.ReadAll in Hr. injection Hr as <- Hr.
  rewrite (Get_body_read f reqURL res Hu Hg Hr).
  assert (E : (400 <=? http.StatusCode res) = false) by (by apply Z.leb_gt).
  rewrite E, Ha, Hj. repeat split. discriminate.
Qed.

Lemma Get_decode_error_keeps_call_count_witness :
  resp_Error
    (@Get (TestPlatform.usingTestServer
             (TestPlatform.validForecastHandler "<html>"))
       (WithBaseURL "http://127.0.0.1:8080"
          (MakeRequest TestPlatform.key 41.8781 (-87.6297)))) <> None /\
  resp_APICallCount
    (@Get (TestPlatform.usingTestServer
             (TestPlatform.validForecastHandler "<html>"))
       (WithBaseURL "http://127.0.0.1:8080"
          (MakeRequest TestPlatform.key 41.8781 (-87.6297)))) = 1 /\
  (1 <> 0).
Proof.
  destruct (@Get_decode_error_keeps_call_count
              (TestPlatform.usingTestServer
                 (TestPlatform.validForecastHandler "<html>"))
              (WithBaseURL "http://127.0.0.1:8080"
                 (MakeRequest TestPlatform.key 41.8781 (-87.6297)))
              "http://127.0.0.1:8080/test_key/41.8781,-87.6297?lang=en&units=us"
              (TestPlatform.validForecastHandler "<html>") "<html>" 1
              (library_error "encoding/json" "invalid character"))
    as (_ & Herr & Hcount).
  - vm_compute. reflexivity.
  - reflexivity.
  - reflexivity.
  - vm_compute. reflexivity.
  - vm_compute. reflexivity.
  - reflexivity.
  - split; [exact Herr|]. split; [exact Hcount|]. discriminate.
Defined.

(** ** The compass over all of binary64 *)

Section CompassRanges.
Import CompassSpec.

(** Off NaN some test fires, in and out of the interval from 0 to 360. *)
Lemma some_test_fires_off_nan b :
  PrimFloat.is_nan b = false ->
  north b || south b || east b || west b = true.
Proof.
  unfold PrimFloat.is_nan. rewrite FloatAxioms.eqb_spec.
  by_float_cases b.
  - intros _. destruct s; vm_compute; reflexivity.
  - intros _. destruct s; vm_compute; reflexivity.
  - vm_compute. discriminate.
  - intros _. destruct s; [vm_compute; reflexivity|].
    rewrite !orb_true_iff, !andb_true_iff, !SFltb_finite_nonneg. lia.
Qed.

(** On NaN no test fires. *)
Lemma no_test_fires_on_nan b :
  PrimFloat.is_nan b = true -> label b = "".
Proof.
  unfold PrimFloat.is_nan, label, letter. rewrite FloatAxioms.eqb_spec.
  by_float_cases b.
  - destruct s; vm_compute; discriminate.
  - destruct s; vm_compute; discriminate.
  - intros _. vm_compute. reflexivity.
  - unfold SFeqb, SFcompare. rewrite Z.compare_refl.
    change (PosDef.Pos.compare_cont Eq m m) with (Pos.compare m m).
    rewrite Pos.compare_refl. destruct s; discriminate.
Qed.

End CompassRanges.

(** X1: the label of every bearing, by range: N up to 22 and from 337 on
    (negative bearings and bearings above 360 included), NE between 22 and
    67, E from 67 to 113, SE between 113 and 157, S from 157 to 203, SW
    between 203 and 247, W from 247 to 293, NW between 293 and 337. *)
Theorem WindDirection_by_range (dp : DataPoint) :
  ((dp_WindBearing dp <=? 22)%float = true -> WindDirection dp = "N") /\
  ((22 <? dp_WindBearing dp)%float = true ->
   (dp_WindBearing dp <? 67)%float = true -> WindDirection dp = "NE") /\
  ((67 <=? dp_WindBearing dp)%float = true ->
   (dp_WindBearing dp <=? 113)%float = true -> WindDirection dp = "E") /\
  ((113 <? dp_WindBearing dp)%float = true ->
   (dp_WindBearing dp <? 157)%float = true -> WindDirection dp = "SE") /\
  ((157 <=? dp_WindBearing dp)%float = true ->
   (dp_WindBearing dp <=? 203)%float = true -> WindDirection dp = "S") /\
  ((203 <? dp_WindBearing dp)%float = true ->
   (dp_WindBearing dp <? 247)%float = true -> WindDirection dp = "SW") /\
  ((247 <=? dp_WindBearing dp)%float = true ->
   (dp_WindBearing dp <=? 293)%float = true -> WindDirection dp = "W") /\
  ((293 <? dp_WindBearing dp)%float = true ->
   (dp_WindBearing dp <? 337)%float = true -> WindDirection dp = "NW") /\
  ((337 <=? dp_WindBearing dp)%float = true -> WindDirection dp = "N").
Proof.
  rewrite WindDirection_label. unfold CompassSpec.label, CompassSpec.letter.
  by_float_cases (dp_WindBearing dp).
  - destruct s; vm_compute; repeat split; intros; congruence.
  - destruct s; vm_compute; repeat split; intros; congruence.
  - vm_compute; repeat split; intros; congruence.
  - destruct s; [vm_compute; repeat split; intros; congruence|].
    rewrite !SFleb_finite_nonneg.
    repeat split; intros; sf_decide SFltb_finite_nonneg; reflexivity.
Qed.

(** The bearing 200 of the comment on [WindDirection] lies in the range of
    S. *)
Lemma WindDirection_by_range_witness :
  WindDirection (DataPoint_with_WindBearing 200) = "S".
Proof.
  apply (WindDirection_by_range (DataPoint_with_WindBearing 200));
    vm_compute; reflexivity.
Defined.

(** X2: [WindDirection] is the empty string exactly for a NaN bearing; for
    every other bearing, in or out of the interval from 0 to 360 and the
    infinities included, it is one of the eight compass labels. *)
Theorem WindDirection_empty_iff_nan (dp : DataPoint) :
  (WindDirection dp = "" <-> PrimFloat.is_nan (dp_WindBearing dp) = true) /\
  (PrimFloat.is_nan (dp_WindBearing dp) = false ->
   WindDirection dp ∈ compass_labels).
Proof.
  rewrite WindDirection_label.
  assert (Hlabel : PrimFloat.is_nan (dp_WindBearing dp) = false ->
                   CompassSpec.label (dp_WindBearing dp) ∈ compass_labels /\
                   CompassSpec.label (dp_WindBearing dp) <> "").
  { intros Hn.
    destruct (label_is_compass_label (dp_WindBearing dp)
                (some_test_fires_off_nan _ Hn)
                (north_south_exclusive _) (east_west_exclusive _))
      as [Hin Hlen].
    split; [exact Hin|]. intros E. rewrite E in Hlen. simpl in Hlen. lia. }
  split; [split|].
  - intros E. destruct (PrimFloat.is_nan (dp_WindBearing dp)) eqn:Hn; [done|].
    destruct (Hlabel eq_refl) as [_ Hne]. contradiction.
  - apply no_test_fires_on_nan.
  - intros Hn. apply Hlabel, Hn.
Qed.

(** ** Chains of setters *)

Lemma chain_cons (s : setter) (calls : list setter) (f : ForecastRequest) :
  chain (s :: calls) f = chain calls (call s f).
Proof. reflexivity. Qed.

(** The request after a chain, field by field. *)
Lemma chain_fields (calls : list setter) (f : ForecastRequest) :
  chain calls f =
  mkForecastRequest (req_Key f) (req_Lat f) (req_Lng f)
    (last_Time calls (req_Time f)) (last_Lang calls (req_Lang f))
    (last_Units calls (req_Units f)) (req_ExtendHourly f) (req_Exclude f)
    (last_baseURL calls (req_baseURL f)).
Proof.
  revert f. induction calls as [|s calls IH]; intros f.
  - destruct f; reflexivity.
  - rewrite chain_cons, IH. destruct s; reflexivity.
Qed.

(** X3: after any chain of setter calls the request holds, for each of base
    URL, time, language and units, the argument of the last call of its
    setter in the chain -- or the value it had before, when the chain does
    not call that setter -- and its key, coordinates, [ExtendHourly] and
    [Exclude] are as before. The order of calls of different setters does not
    matter. *)
Theorem chain_last_call_wins (calls : list setter) (f : ForecastRequest) :
  chain calls f =
  mkForecastRequest (req_Key f) (req_Lat f) (req_Lng f)
    (last_Time calls (req_Time f)) (last_Lang calls (req_Lang f))
    (last_Units calls (req_Units f)) (req_ExtendHourly f) (req_Exclude f)
    (last_baseURL calls (req_baseURL f)).
Proof. apply chain_fields. Qed.

(** ** What [URL] depends on *)

(** X4: [URL] returns an error exactly when [url.Parse] rejects the base
    URL, and then that error: no key, coordinate, time, language or units
    makes it fail. *)
Theorem URL_error_iff_parse_error `{Platform} (f : ForecastRequest)
    (err : error) :
  URL f = Err err <-> url_Parse (req_baseURL f) = Err err.
Proof.
  unfold URL, URL_reqURL.
  destruct (url_Parse (req_baseURL f)) as [base|e]; split; intros E;
    congruence.
Qed.

(** X5: [URL] and [Get] depend on the request through its key, coordinates,
    language, units and base URL, and through its time when that is
    positive: two requests that agree on these -- whatever their
    [ExtendHourly] and [Exclude], and whatever their times when neither is
    positive -- render the same URL and get the same response. *)
Theorem URL_depends_on `{Platform} (f g : ForecastRequest) :
  req_Key f = req_Key g ->
  req_Lat f = req_Lat g ->
  req_Lng f = req_Lng g ->
  req_Lang f = req_Lang g ->
  req_Units f = req_Units g ->
  req_baseURL f = req_baseURL g ->
  req_Time f = req_Time g \/ (req_Time f <= 0 /\ req_Time g <= 0) ->
  URL f = URL g /\ Get f = Get g.
Proof.
  intros Hk Hla Hlo Hl Hu Hb Ht.
  assert (HU : URL f = URL g).
  { unfold URL, URL_reqURL. rewrite Hk, Hla, Hlo, Hl, Hu, Hb.
    destruct (url_Parse (req_baseURL g)) as [base|err]; [|reflexivity].
    destruct Ht as [->|[Hf Hg]]; [reflexivity|].
    assert (Ef : (0 <? req_Time f) = false) by (apply Z.ltb_ge; exact Hf).
    assert (Eg : (0 <? req_Time g) = false) by (apply Z.ltb_ge; exact Hg).
    rewrite Ef, Eg. reflexivity. }
  split; [exact HU|]. unfold Get. rewrite HU. reflexivity.
Qed.

Lemma URL_depends_on_witness :
  @URL (TestPlatform.usingTestServer TestPlatform.errorForecastHandler)
    (MakeRequest "foo" 41.1234 (-81.1234)) =
  @URL (TestPlatform.usingTestServer TestPlatform.errorForecastHandler)
    (WithTime 0 (set_Exclude ["minutely"] (set_ExtendHourly true
       (MakeRequest "foo" 41.1234 (-81.1234))))) /\
  @Get (TestPlatform.usingTestServer TestPlatform.errorForecastHandler)
    (MakeRequest "foo" 41.1234 (-81.1234)) =
  @Get (TestPlatform.usingTestServer TestPlatform.errorForecastHandler)
    (WithTime 0 (set_Exclude ["minutely"] (set_ExtendHourly true
       (MakeRequest "foo" 41.1234 (-81.1234))))).
Proof.
  apply (@URL_depends_on
           (TestPlatform.usingTestServer TestPlatform.errorForecastHandler)
           (MakeRequest "foo" 41.1234 (-81.1234))
           (WithTime 0 (set_Exclude ["minutely"] (set_ExtendHourly true
              (MakeRequest "foo" 41.1234 (-81.1234)))))); try reflexivity.
  right. simpl. lia.
Defined.

(** ** The query of the rendered URL *)

(** [QueryEscape] writes unreserved bytes, [+] and [%] only. *)
Lemma upperhex_unreserved (c : ascii) :
  url.unreserved (url.upperhex (N_of_ascii c / 16)) = true /\
  url.unreserved (url.upperhex (N_of_ascii c mod 16)) = true.
Proof.
  destruct c as [[] [] [] [] [] [] [] []]; split; vm_compute; reflexivity.
Qed.

Lemma QueryEscape_safe (s : string) :
  forallb query_safe (list_ascii_of_string (url.QueryEscape s)) = true.
Proof.
  induction s as [|c s IH]; [reflexivity|]. simpl.
  destruct (Ascii.eqb c " ") eqn:Hsp; [simpl; exact IH|].
  destruct (url.unreserved c) eqn:Hun.
  - simpl. unfold query_safe at 1. rewrite Hun. simpl. exact IH.
  - destruct (upperhex_unreserved c) as [Hh Hl].
    simpl. unfold query_safe at 1 2 3. rewrite Hh, Hl. simpl. exact IH.
Qed.

Lemma count_byte_app (c : ascii) (s1 s2 : string) :
  count_byte c (s1 +:+ s2) = (count_byte c s1 + count_byte c s2)%nat.
Proof. induction s1 as [|c' s1 IH]; simpl; [reflexivity|]. rewrite IH. lia. Qed.

(** A byte that is not query-safe does not occur in an escaped string. *)
Lemma count_byte_QueryEscape (c : ascii) (s : string) :
  query_safe c = false -> count_byte c (url.QueryEscape s) = 0%nat.
Proof.
  intros Hc. pose proof (QueryEscape_safe s) as Hs.
  induction (url.QueryEscape s) as [|c' t IH]; [reflexivity|].
  simpl in Hs |- *. apply andb_true_iff in Hs as [Hc' Ht].
  rewrite (IH Ht). destruct (Ascii.eqb c c') eqn:E; [|reflexivity].
  apply Ascii.eqb_eq in E. subst c'. congruence.
Qed.

(** The declared codes are made of unreserved bytes: escaping leaves them as
    they are. *)
Lemma declared_codes_unescaped :
  Forall (fun l => url.QueryEscape l = l) declared_Langs /\
  Forall (fun u => url.QueryEscape u = u) declared_Units.
Proof. split; repeat constructor. Qed.

(** X6: a request made by [MakeRequest] and set to a declared language and
    declared units renders, when the default base URL parses to a URL
    without a query, that URL with the path [{base path}/{key}/{lat},{lng}]
    and the query [lang={code}&units={code}], the codes as declared; as made,
    the query is [lang=en&units=us]. *)
Theorem MakeRequest_URL `{Platform} (key : string) (latitude longitude : float)
    (l : Lang) (u : Units) (base : url.URL) :
  url_Parse "https://api.darksky.net/forecast" = Ok base ->
  URL_Query base = ∅ ->
  l ∈ declared_Langs ->
  u ∈ declared_Units ->
  URL (WithUnits u (WithLang l (MakeRequest key latitude longitude))) =
    Ok (URL_String
          (url.set_RawQuery
             (url.set_Path base
                (url.Path base +:+ "/" +:+ key +:+ "/" +:+
                 fmt_float64 latitude +:+ "," +:+ fmt_float64 longitude))
             ("lang=" +:+ l +:+ "&" +:+ "units=" +:+ u))) /\
  URL (MakeRequest key latitude longitude) =
    Ok (URL_String
          (url.set_RawQuery
             (url.set_Path base
                (url.Path base +:+ "/" +:+ key +:+ "/" +:+
                 fmt_float64 latitude +:+ "," +:+ fmt_float64 longitude))
             "lang=en&units=us")).
Proof.
  intros Hp Hq Hl Hu.
  destruct declared_codes_unescaped as [HL HU].
  rewrite Forall_forall in HL, HU.
  split.
  - unfold URL.
    rewrite (URL_reqURL_unset
               (WithUnits u (WithLang l (MakeRequest key latitude longitude)))
               base eq_refl Hp). simpl.
    rewrite Hq. unfold url.Encode. rewrite items_lang_units_only.
    rewrite (HL l Hl), (HU u Hu). reflexivity.
  - unfold URL.
    rewrite (URL_reqURL_unset (MakeRequest key latitude longitude)
               base eq_refl Hp). simpl.
    rewrite Hq. reflexivity.
Qed.

Lemma MakeRequest_URL_witness :
  @URL (TestPlatform.usingTestServer TestPlatform.errorForecastHandler)
    (WithUnits UK2 (WithLang TraditionalChinese
       (MakeRequest "foo" 41.1234 (-81.1234)))) =
  Ok "https://api.darksky.net/forecast/foo/41.1234,-81.1234?lang=zh-tw&units=uk2".
Proof.
  destruct (@MakeRequest_URL
              (TestPlatform.usingTestServer TestPlatform.errorForecastHandler)
              "foo" 41.1234 (-81.1234) TraditionalChinese UK2
              (url.mkURL "https" "" None "api.darksky.net" "/forecast" "" false "" ""))
    as [Hurl _].
  - reflexivity.
  - reflexivity.
  - unfold declared_Langs. set_solver.
  - unfold declared_Units. set_solver.
  - rewrite Hurl. vm_compute. reflexivity.
Defined.

(** X7: whatever bytes the language and the units hold, the query [URL]
    builds on a base URL without a query of its own has one [&] and two [=],
    and no space, [#], [?] or [/]: a language or units value cannot add or
    replace a parameter. *)
Theorem URL_query_not_injectable `{Platform} (f : ForecastRequest)
    (base : url.URL) :
  url_Parse (req_baseURL f) = Ok base ->
  URL_Query base = ∅ ->
  exists reqURL : url.URL,
    URL_reqURL f = Ok reqURL /\
    count_byte "&" (url.RawQuery reqURL) = 1%nat /\
    count_byte "=" (url.RawQuery reqURL) = 2%nat /\
    count_byte " " (url.RawQuery reqURL) = 0%nat /\
    count_byte "#" (url.RawQuery reqURL) = 0%nat /\
    count_byte "?" (url.RawQuery reqURL) = 0%nat /\
    count_byte "/" (url.RawQuery reqURL) = 0%nat.
Proof.
  intros Hp Hq. unfold URL_reqURL. rewrite Hp, Hq.
  eexists. split; [reflexivity|].
  assert (Hraw : forall u : url.URL,
            url.RawQuery
              (url.set_RawQuery u
                 (url.Encode (url.Add (url.Add ∅ "lang" (req_Lang f))
                                "units" (req_Units f)))) =
            "lang=" +:+ url.QueryEscape (req_Lang f) +:+ "&" +:+
            "units=" +:+ url.QueryEscape (req_Units f)).
  { intros u. simpl. unfold url.Encode. rewrite items_lang_units_only.
    reflexivity. }
  rewrite Hraw.
  repeat split; rewrite !count_byte_app, !count_byte_QueryEscape by reflexivity;
    reflexivity.
Qed.

Lemma URL_query_not_injectable_witness :
  @URL (TestPlatform.usingTestServer TestPlatform.errorForecastHandler)
    (WithLang "en&units=si#" (MakeRequest "foo" 41.1234 (-81.1234))) =
  Ok "https://api.darksky.net/forecast/foo/41.1234,-81.1234?lang=en%26units%3Dsi%23&units=us".
Proof.
  destruct (@URL_query_not_injectable
              (TestPlatform.usingTestServer TestPlatform.errorForecastHandler)
              (WithLang "en&units=si#" (MakeRequest "foo" 41.1234 (-81.1234)))
              (url.mkURL "https" "" None "api.darksky.net" "/forecast" "" false "" "")
              eq_refl eq_refl) as (reqURL & Hreq & _).
  unfold URL. rewrite Hreq. vm_compute in Hreq. injection Hreq as <-.
  vm_compute. reflexivity.
Defined.

(** ** What [Get] makes of the transport *)

Section Responses.
Context `{Platform}.

(** [Get] renders the URL, asks the transport for it, and answers by
    [response_of]. *)
Lemma Get_response_of (f : ForecastRequest) :
  Get f =
  match URL f with
  | Err err => mkForecastResponse Forecast_zero 0 (Some err)
  | Ok reqURL => response_of (http_Get reqURL)
  end.
Proof.
  unfold Get, response_of. destruct (URL f) as [reqURL|err]; [|reflexivity].
  destruct (http_Get reqURL) as [res|err]; [|reflexivity].
  unfold http.ReadAll.
  destruct (http.stream_err (http.Body res)); [reflexivity|].
  destruct (400 <=? http.StatusCode res); [reflexivity|].
  destruct (strconv.Atoi _), (fromJSON _); reflexivity.
Qed.

Lemma Earlier_Get_response_of (f : ForecastRequest) :
  Earlier.Get f =
  response_of
    (http_Get (Sprintf_path (req_baseURL f) (req_Key f) (req_Lat f) (req_Lng f))).
Proof.
  unfold Earlier.Get, response_of.
  destruct (http_Get _) as [res|err]; [|reflexivity].
  unfold http.ReadAll.
  destruct (http.stream_err (http.Body res)); [reflexivity|].
  destruct (400 <=? http.StatusCode res); [reflexivity|].
  destruct (strconv.Atoi _), (fromJSON _); reflexivity.
Qed.

End Responses.

(** What [Atoi] returns is within [int]. *)
Lemma Atoi_range (s : string) (n : Z) :
  strconv.Atoi s = Ok n -> - 2 ^ 63 <= n < 2 ^ 63.
Proof.
  unfold strconv.Atoi. destruct s as [|c rest]; [discriminate|].
  cbv zeta.
  destruct (if Ascii.eqb c "-" || Ascii.eqb c "+" then rest else String c rest)
    as [|c' digs]; [discriminate|].
  destruct (strconv.digits (String c' digs) 0) as [m|]; [|discriminate].
  destruct (_ && _) eqn:Hr; [|discriminate].
  intros [= <-]. apply andb_true_iff in Hr as [Hlo Hhi].
  unfold strconv.intSize in Hlo, Hhi. lia.
Qed.

(** X8: the response of [Get] has no error exactly when the URL was
    rendered, the transport answered, the body was read to its end, the
    status is below 400 and the body decodes; its forecast is then the
    decoded one. *)
Theorem Get_success_iff `{Platform} (f : ForecastRequest) :
  resp_Error (Get f) = None <->
  exists (reqURL : string) (res : http.Response) (forecast : Forecast),
    URL f = Ok reqURL /\
    http_Get reqURL = Ok res /\
    http.ReadAll (http.Body res) = (http.stream_data (http.Body res), None) /\
    http.StatusCode res < 400 /\
    fromJSON (http.stream_data (http.Body res)) = Ok forecast /\
    resp_Forecast (Get f) = forecast.
Proof.
  split.
  - destruct (Get_outcome f) as
      [err Hu|reqURL err Hu Hg|reqURL res err Hu Hg Hr|reqURL res Hu Hg Hr Hs
      |reqURL res err Hu Hg Hr Hs Hj|reqURL res forecast Hu Hg Hr Hs Hj];
      simpl; intros Hnone; try discriminate.
    exists reqURL, res, forecast. unfold http.ReadAll. rewrite Hr. done.
  - intros (reqURL & res & forecast & Hu & Hg & Hr & Hs & Hj & _).
    unfold http.ReadAll in Hr. injection Hr as Hr.
    rewrite (Get_body_read f reqURL res Hu Hg Hr).
    assert (E : (400 <=? http.StatusCode res) = false) by (by apply Z.leb_gt).
    rewrite E, Hj. reflexivity.
Qed.

(** X9: [Get] uses the transport for the rendered URL and for nothing else:
    two transports that answer that URL alike give the same response, and
    when [URL] fails the transport plays no part. *)
Theorem Get_transport_only_at_URL (P : Platform)
    (transport1 transport2 : string -> result http.Response)
    (f : ForecastRequest) :
  (forall reqURL : string,
     @URL P f = Ok reqURL -> transport1 reqURL = transport2 reqURL) ->
  @Get (with_transport P transport1) f = @Get (with_transport P transport2) f.
Proof.
  intros Hsame. rewrite !Get_response_of.
  change (@URL (with_transport P transport1) f) with (@URL P f).
  change (@URL (with_transport P transport2) f) with (@URL P f).
  destruct (@URL P f) as [reqURL|err] eqn:Hu; [|reflexivity].
  simpl. rewrite (Hsame reqURL eq_refl). reflexivity.
Qed.

Lemma Get_transport_only_at_URL_witness :
  @Get (with_transport
          (TestPlatform.usingTestServer TestPlatform.errorForecastHandler)
          (fun _ => Ok (TestPlatform.validForecastHandler "{}")))
    (WithBaseURL "http://127.0.0.1:8080"
       (MakeRequest TestPlatform.key 41.8781 (-87.6297))) =
  @Get (with_transport
          (TestPlatform.usingTestServer TestPlatform.errorForecastHandler)
          (fun reqURL =>
             if String.eqb reqURL
                  "http://127.0.0.1:8080/test_key/41.8781,-87.6297?lang=en&units=us"
             then Ok (TestPlatform.validForecastHandler "{}")
             else Err (library_error "net/http" "connection refused")))
    (WithBaseURL "http://127.0.0.1:8080"
       (MakeRequest TestPlatform.key 41.8781 (-87.6297))).
Proof.
  apply (Get_transport_only_at_URL
           (TestPlatform.usingTestServer TestPlatform.errorForecastHandler)).
  intros reqURL Hu. vm_compute in Hu. injection Hu as <-. reflexivity.
Defined.

(** X10: a failure before the status is looked at gives the zero forecast
    and a call count of 0 with the error of that failure: the error of
    [URL], the error of the transport, or the error met while reading the
    body -- whatever status, call-count header and bytes read the response
    has. *)
Theorem Get_early_failures `{Platform} (f : ForecastRequest) :
  (forall err : error,
     URL f = Err err ->
     Get f = mkForecastResponse Forecast_zero 0 (Some err)) /\
  (forall (reqURL : string) (err : error),
     URL f = Ok reqURL -> http_Get reqURL = Err err ->
     Get f = mkForecastResponse Forecast_zero 0 (Some err)) /\
  (forall (reqURL : string) (res : http.Response) (body : string) (err : error),
     URL f = Ok reqURL -> http_Get reqURL = Ok res ->
     http.ReadAll (http.Body res) = (body, Some err) ->
     Get f = mkForecastResponse Forecast_zero 0 (Some err)).
Proof.
  rewrite Get_response_of. repeat split.
  - intros err ->. reflexivity.
  - intros reqURL err -> Hg. rewrite Hg. reflexivity.
  - intros reqURL res body err -> Hg Hr. rewrite Hg.
    unfold http.ReadAll in Hr. injection Hr as _ Hr.
    unfold response_of. rewrite Hr. reflexivity.
Qed.

Lemma Get_early_failures_witness :
  @Get (TestPlatform.usingTestServer brokenBodyHandler)
    (WithBaseURL "http://127.0.0.1:8080"
       (MakeRequest TestPlatform.key 41.8781 (-87.6297))) =
  mkForecastResponse Forecast_zero 0 (Some (library_error "io" "unexpected EOF")).
Proof.
  destruct (@Get_early_failures (TestPlatform.usingTestServer brokenBodyHandler)
              (WithBaseURL "http://127.0.0.1:8080"
                 (MakeRequest TestPlatform.key 41.8781 (-87.6297))))
    as (_ & _ & Hread).
  apply (Hread "http://127.0.0.1:8080/test_key/41.8781,-87.6297?lang=en&units=us"
           brokenBodyHandler "A Serv").
  - vm_compute. reflexivity.
  - reflexivity.
  - reflexivity.
Defined.

(** X11: the call count of a response of [Get] is within [int], and when it
    is not 0 it is what [Atoi] read from the call-count header of a response
    with a status below 400 -- a negative numeral in the header gives a
    negative count. *)
Theorem Get_call_count_origin `{Platform} (f : ForecastRequest) :
  - 2 ^ 63 <= resp_APICallCount (Get f) < 2 ^ 63 /\
  (resp_APICallCount (Get f) <> 0 ->
   exists (reqURL : string) (res : http.Response),
     URL f = Ok reqURL /\ http_Get reqURL = Ok res /\
     http.StatusCode res < 400 /\
     strconv.Atoi (http.Header_Get (http.Header_ res) APICallsHeader) =
       Ok (resp_APICallCount (Get f))).
Proof.
  destruct (Get_outcome f) as
    [err Hu|reqURL err Hu Hg|reqURL res err Hu Hg Hr|reqURL res Hu Hg Hr Hs
    |reqURL res err Hu Hg Hr Hs Hj|reqURL res forecast Hu Hg Hr Hs Hj];
    simpl; try (split; [lia|intros Hne; congruence]);
    destruct (strconv.Atoi _) as [n|e] eqn:Ha;
    try (split; [lia|intros Hne; congruence]);
    (split; [exact (Atoi_range _ _ Ha)|]); intros _;
    exists reqURL, res; done.
Qed.

Lemma Get_call_count_origin_witness :
  resp_APICallCount
    (@Get (TestPlatform.usingTestServer
             (http.mkResponse 200 {[ "X-Forecast-Api-Calls" := ["-5"] ]}
                (http.mkReadCloser "{}" None)))
       (WithBaseURL "http://127.0.0.1:8080"
          (MakeRequest TestPlatform.key 41.8781 (-87.6297)))) = -5 /\
  - 2 ^ 63 <= -5 < 2 ^ 63.
Proof.
  assert (E : resp_APICallCount
    (@Get (TestPlatform.usingTestServer
             (http.mkResponse 200 {[ "X-Forecast-Api-Calls" := ["-5"] ]}
                (http.mkReadCloser "{}" None)))
       (WithBaseURL "http://127.0.0.1:8080"
          (MakeRequest TestPlatform.key 41.8781 (-87.6297)))) = -5)
    by (vm_compute; reflexivity).
  split; [exact E|]. rewrite <- E.
  apply (@Get_call_count_origin
           (TestPlatform.usingTestServer
              (http.mkResponse 200 {[ "X-Forecast-Api-Calls" := ["-5"] ]}
                 (http.mkReadCloser "{}" None)))
           (WithBaseURL "http://127.0.0.1:8080"
              (MakeRequest TestPlatform.key 41.8781 (-87.6297)))).
Defined.

(** ** The earlier revision *)

(** X12: in the earlier revision a chain of setter calls affects [Get]
    through its last [WithBaseURL] call only: the time, the language and the
    units set along the chain have no effect on the response. *)
Theorem Earlier_Get_chain `{Platform} (calls : list setter)
    (f : ForecastRequest) :
  Earlier.Get (chain calls f) =
  Earlier.Get (WithBaseURL (last_baseURL calls (req_baseURL f)) f).
Proof. rewrite chain_fields. reflexivity. Qed.

(** X13: the two revisions of [Get] differ in the URL they request only:
    when [URL] renders a URL that the transport answers as it answers the
    base URL with the key and the coordinates appended, both return the same
    response. *)
Theorem revisions_agree `{Platform} (f : ForecastRequest) (reqURL : string) :
  URL f = Ok reqURL ->
  http_Get reqURL =
    http_Get (Sprintf_path (req_baseURL f) (req_Key f) (req_Lat f) (req_Lng f)) ->
  Get f = Earlier.Get f.
Proof.
  intros Hu Hsame. rewrite Get_response_of, Earlier_Get_response_of, Hu, Hsame.
  reflexivity.
Qed.

Lemma revisions_agree_witness :
  @Get (TestPlatform.usingTestServer (TestPlatform.validForecastHandler "{}"))
    (WithBaseURL "http://127.0.0.1:8080"
       (MakeRequest TestPlatform.key 41.8781 (-87.6297))) =
  @Earlier.Get
    (TestPlatform.usingTestServer (TestPlatform.validForecastHandler "{}"))
    (WithBaseURL "http://127.0.0.1:8080"
       (MakeRequest TestPlatform.key 41.8781 (-87.6297))).
Proof.
  apply (@revisions_agree
           (TestPlatform.usingTestServer (TestPlatform.validForecastHandler "{}"))
           (WithBaseURL "http://127.0.0.1:8080"
              (MakeRequest TestPlatform.key 41.8781 (-87.6297)))
           "http://127.0.0.1:8080/test_key/41.8781,-87.6297?lang=en&units=us").
  - vm_compute. reflexivity.
  - reflexivity.
Defined.

(** X14: in the earlier revision too, a response of [Get] with an error has
    the zero forecast; and there the error is never one of rendering the
    URL: it is the error of the transport, of reading the body, the body of
    a response with a status of 400 or more, or the error of decoding. *)
Theorem Earlier_Get_error_zero_forecast `{Platform} (f : ForecastRequest) :
  resp_Error (Earlier.Get f) <> None ->
  resp_Forecast (Earlier.Get f) = Forecast_zero /\
  exists err : error,
    resp_Error (Earlier.Get f) = Some err /\
    (http_Get (Sprintf_path (req_baseURL f) (req_Key f) (req_Lat f) (req_Lng f))
       = Err err \/
     exists res : http.Response,
       http_Get (Sprintf_path (req_baseURL f) (req_Key f) (req_Lat f) (req_Lng f))
         = Ok res /\
       (http.ReadAll (http.Body res) =
          (http.stream_data (http.Body res), Some err) \/
        http.ReadAll (http.Body res) =
          (http.stream_data (http.Body res), None) /\
        (400 <= http.StatusCode res /\
         err = errors_New (http.stream_data (http.Body res)) \/
         http.StatusCode res < 400 /\
         fromJSON (http.stream_data (http.Body res)) = Err err))).
Proof.
  rewrite Earlier_Get_response_of. unfold response_of, http.ReadAll.
  destruct (http_Get _) as [res|err] eqn:Hg.
  - destruct (http.stream_err (http.Body res)) as [err|] eqn:Hr.
    + intros _. split; [reflexivity|]. exists err. split; [reflexivity|].
      right. exists res. split; [reflexivity|]. rewrite Hr. by left.
    + destruct (400 <=? http.StatusCode res) eqn:Hs.
      * intros _. split; [reflexivity|]. eexists. split; [reflexivity|].
        right. exists res. split; [reflexivity|]. rewrite Hr. right.
        split; [reflexivity|]. left. split; [by apply Z.leb_le|reflexivity].
      * cbv zeta. destruct (fromJSON _) as [forecast|err] eqn:Hj.
        { simpl. congruence. }
        intros _. split; [reflexivity|]. exists err. split; [reflexivity|].
        right. exists res. split; [reflexivity|]. rewrite Hr. right.
        split; [reflexivity|]. right. split; [by apply Z.leb_gt|exact Hj].
  - intros _. split; [reflexivity|]. exists err. split; [reflexivity|]. by left.
Qed.

Lemma Earlier_Get_error_zero_forecast_witness :
  @Earlier.Get (TestPlatform.usingTestServer TestPlatform.errorForecastHandler)
    (WithBaseURL "http://127.0.0.1:8080"
       (MakeRequest TestPlatform.key 41.8781 (-87.6297))) =
  mkForecastResponse Forecast_zero 0
    (Some (errors_New "A Server Error Occurred.")) /\
  resp_Forecast
    (@Earlier.Get (TestPlatform.usingTestServer TestPlatform.errorForecastHandler)
       (WithBaseURL "http://127.0.0.1:8080"
          (MakeRequest TestPlatform.key 41.8781 (-87.6297)))) = Forecast_zero.
Proof.
  split; [vm_compute; reflexivity|].
  apply (@Earlier_Get_error_zero_forecast
           (TestPlatform.usingTestServer TestPlatform.errorForecastHandler)
           (WithBaseURL "http://127.0.0.1:8080"
              (MakeRequest TestPlatform.key 41.8781 (-87.6297)))).
  vm_compute. discriminate.
Defined.

(** ** The tests of [darksky_test.go], replayed on the test platform *)

(** [TestForecastRequest_URL] *)
Example TestForecastRequest_URL :
  let P := TestPlatform.usingTestServer TestPlatform.errorForecastHandler in
  let req := MakeRequest "foo" 41.1234 (-81.1234) in
  @URL P req =
    Ok "https://api.darksky.net/forecast/foo/41.1234,-81.1234?lang=en&units=us" /\
  @URL P (WithLang Spanish req) =
    Ok "https://api.darksky.net/forecast/foo/41.1234,-81.1234?lang=es&units=us" /\
  @URL P (WithUnits SI (WithLang Spanish req)) =
    Ok "https://api.darksky.net/forecast/foo/41.1234,-81.1234?lang=es&units=si" /\
  @URL P (WithTime 12345 (WithUnits SI (WithLang Spanish req))) =
    Ok "https://api.darksky.net/forecast/foo/41.1234,-81.1234,12345?lang=es&units=si".
Proof. repeat split; vm_compute; reflexivity. Qed.

(** [TestErrorResponse] *)
Example TestErrorResponse :
  option_map Error_text
    (resp_Error
       (@Get (TestPlatform.usingTestServer TestPlatform.errorForecastHandler)
          (WithBaseURL "http://127.0.0.1:8080"
             (MakeRequest TestPlatform.key 41.8781 (-87.6297))))) =
  Some "A Server Error Occurred.".
Proof. vm_compute. reflexivity. Qed.

(** [TestForecastRequest_Get], on the empty forecast. *)
Example TestForecastRequest_Get :
  @Get (TestPlatform.usingTestServer (TestPlatform.validForecastHandler "{}"))
    (WithBaseURL "http://127.0.0.1:8080"
       (MakeRequest TestPlatform.key 41.8781 (-87.6297))) =
  mkForecastResponse Forecast_zero 1 None.
Proof. vm_compute. reflexivity. Qed.

(** [TestWindDirection] *)
Example TestWindDirection :
  WindDirection (DataPoint_with_WindBearing 147) = "SE" /\
  WindDirection (DataPoint_with_WindBearing 0) = "N" /\
  WindDirection (DataPoint_with_WindBearing 336) = "NW".
Proof. repeat split; vm_compute; reflexivity. Qed.
